(** * Intent classification service: a shallow embedding and its properties

    Sources embedded here:
      - [intent-classifier/hf_intent_classifier.py]  (remote path, [classify_intent_hf])
      - [intent-classifier/intent_classifier.py]     (local path,  [classify_intent])

    Modelling conventions.
      - A Python [str] is a Rocq [string]; every [ascii] stands for one code
        point in U+0000..U+00FF.
      - Scores are Python floats; they are only copied and cast with
        [float()], never computed with, so a score is modelled by the
        rational number it denotes ([Q]); NaN and infinities are left out.
      - A Python [dict] is an association list in insertion order whose
        update replaces the value under an existing key in place.
      - A history comes in two views.  The typed view ([turn]) takes a
        turn to be a dict from strings to strings, the contract under which
        the context is composed.  The raw view takes a history to be a list
        of arbitrary JSON values, as Python lets it be; there the
        composition, which stands before the [try], can raise
        ([raw_compose_context], [classify_intent_hf_raw],
        [classify_intent_raw]).  The two views agree on typed histories
        ([raw_view_agrees]).
      - A JSON number is taken to be exactly representable as a float, as
        a score between 0 and 1 is.
      - The HTTP endpoint and the local pipeline are oracles of the
        environment; every call is recorded in a trace, together with the
        calls to [time.sleep].
      - Console output ([print]) and the wall-clock measurement behind
        [request_time_ms] are not modelled. *)

From Stdlib Require Import String Ascii List Bool Arith ZArith NArith QArith Lia.
Import ListNotations.

Local Close Scope Q_scope.
Local Open Scope string_scope.
Local Open Scope list_scope.

(* ================================================================== *)
(** ** Python strings *)

Module PyStr.

(** [str.isspace] on the code points below 256. *)
Definition is_space (c : ascii) : bool :=
  let n := N_of_ascii c in
  (((9 <=? n) && (n <=? 13)) || ((28 <=? n) && (n <=? 32))
   || (n =? 133) || (n =? 160))%N.

Fixpoint lstrip (s : string) : string :=
  match s with
  | EmptyString => EmptyString
  | String c s' => if is_space c then lstrip s' else s
  end.

Fixpoint rstrip (s : string) : string :=
  match s with
  | EmptyString => EmptyString
  | String c s' =>
      match rstrip s' with
      | EmptyString => if is_space c then EmptyString else String c EmptyString
      | r => String c r
      end
  end.

(** [s.strip()] *)
Definition strip (s : string) : string := rstrip (lstrip s).

(** Truth value of a string: [bool(s)]. *)
Definition truthy (s : string) : bool :=
  match s with EmptyString => false | _ => true end.

(** [sep.join(parts)] *)
Definition join (sep : string) (parts : list string) : string :=
  String.concat sep parts.

(** Every character of [s] is white space (the empty string included). *)
Definition whitespace_only (s : string) : bool :=
  forallb is_space (list_ascii_of_string s).

End PyStr.

(* ================================================================== *)
(** ** Python lists and dicts *)

Module PyList.

(** [l[-n:]] for a positive [n]: the last [n] elements, all of [l] when
    it is shorter. *)
Definition last_n {A : Type} (n : nat) (l : list A) : list A :=
  skipn (length l - n) l.

(** [l[0]], [None] standing for Python's [IndexError]. *)
Definition first {A : Type} (l : list A) : option A :=
  match l with
  | [] => None
  | x :: _ => Some x
  end.

End PyList.

Module PyDict.
Section Dict.

Context {K V : Type}.
Variable eqb : K -> K -> bool.

Definition dict : Type := list (K * V).

(** [d.get(k)] *)
Fixpoint get (d : dict) (k : K) : option V :=
  match d with
  | [] => None
  | (k0, v0) :: d' => if eqb k0 k then Some v0 else get d' k
  end.

(** [d.get(k, default)] *)
Definition get_default (d : dict) (k : K) (default : V) : V :=
  match get d k with
  | Some v => v
  | None => default
  end.

(** [d[k] = v]: the first key stays where it was inserted. *)
Fixpoint set (d : dict) (k : K) (v : V) : dict :=
  match d with
  | [] => [(k, v)]
  | (k0, v0) :: d' =>
      if eqb k0 k then (k0, v) :: d' else (k0, v0) :: set d' k v
  end.

(** Storing the items one after the other into [d]. *)
Definition fill (items : list (K * V)) (d : dict) : dict :=
  fold_left (fun d kv => set d (fst kv) (snd kv)) items d.

(** [{k: v for k, v in items}] *)
Definition of_items (items : list (K * V)) : dict := fill items [].

Definition keys (d : dict) : list K := map fst d.

(** The value of the last item of [items] whose key equals [k]. *)
Fixpoint last_value (items : list (K * V)) (k : K) : option V :=
  match items with
  | [] => None
  | (k0, v0) :: rest =>
      match last_value rest k with
      | Some v => Some v
      | None => if eqb k0 k then Some v0 else None
      end
  end.

End Dict.

(** A dict seen through an embedding [f] of its keys. *)
Definition embed {K K' V : Type} (f : K -> K') (d : list (K * V)) : list (K' * V) :=
  map (fun kv => (f (fst kv), snd kv)) d.

End PyDict.

(* ================================================================== *)
(** ** Python values coming out of [response.json()] *)

#[warnings="-register-all"]
Inductive pyval : Type :=
| VNone
| VBool (b : bool)
| VNum (q : Q)
| VStr (s : string)
| VList (l : list pyval)
| VDict (items : list (string * pyval)).

(** The number a hashable numeric value compares as ([True == 1]). *)
Definition key_num (v : pyval) : option Q :=
  match v with
  | VBool b => Some (if b then 1 else 0)%Q
  | VNum q => Some q
  | _ => None
  end.

(** Equality of dict keys ([==] on hashable JSON values). *)
Definition py_key_eqb (a b : pyval) : bool :=
  match a, b with
  | VNone, VNone => true
  | VStr s, VStr t => String.eqb s t
  | _, _ =>
      match key_num a, key_num b with
      | Some x, Some y => Qeq_bool x y
      | _, _ => false
      end
  end.

(** Exceptions that reach the [except] clauses. *)
Inductive exn : Type :=
| Timeout (detail : string)            (* requests.exceptions.Timeout *)
| RequestException (detail : string)   (* any other failure of requests.post *)
| HTTPError (status : Z)               (* response.raise_for_status() *)
| JSONDecodeError                      (* response.json() *)
| UnexpectedFormat (result : pyval)    (* ValueError, "Unexpected API response format" *)
| FloatValueError (s : string)         (* ValueError of float(str) *)
| KeyError (key : pyval)
| IndexError
| TypeError (operand : pyval)
| AttributeError (operand : pyval)     (* operand.get on a value that is no dict *)
| Exception (detail : string).         (* anything else an oracle raises *)

Inductive exn_class : Type :=
| CTimeout
| CRequestException
| CException.

(** The most specific of the three classes named by the handlers. *)
Definition class_of (e : exn) : exn_class :=
  match e with
  | Timeout _ => CTimeout
  | RequestException _ | HTTPError _ | JSONDecodeError => CRequestException
  | _ => CException
  end.

(** Pure fallible computations. *)
Definition fallible (A : Type) : Type := (exn + A)%type.

Definition fbind {A B : Type} (c : fallible A) (k : A -> fallible B) : fallible B :=
  match c with
  | inl e => inl e
  | inr a => k a
  end.

Declare Scope py_scope.
Delimit Scope py_scope with py.
Notation "'let?' x ':=' c 'in' k" := (fbind c (fun x => k))
  (at level 10, x name, c at level 100, k at level 200) : py_scope.

(** [v[0]] *)
Definition subscript0 (v : pyval) : fallible pyval :=
  match v with
  | VList (x :: _) => inr x
  | VList [] => inl IndexError
  | VStr (String c _) => inr (VStr (String c EmptyString))
  | VStr EmptyString => inl IndexError
  | VDict _ => inl (KeyError (VNum 0))
  | _ => inl (TypeError v)
  end.

(** [iter(v)], as [zip] consumes it. *)
Definition py_iter (v : pyval) : fallible (list pyval) :=
  match v with
  | VList l => inr l
  | VStr s => inr (map (fun c => VStr (String c EmptyString)) (list_ascii_of_string s))
  | VDict items => inr (map (fun kv => VStr (fst kv)) items)
  | _ => inl (TypeError v)
  end.

(* ================================================================== *)
(** ** The label registry *)

Definition INTENT_LABELS : list string :=
  [ "sell_crypto"; "deposit_crypto"; "check_balance"; "check_portfolio";
    "get_crypto_price"; "get_naira_rates"; "transaction_history"; "help";
    "support"; "security_question"; "feedback"; "greeting";
    "spacewatch_leaderboard"; "general_knowledge"; "realtime_crypto_news" ].

Definition INTENT_MAPPING : list (string * string) :=
  [ ("sell_crypto", "sell");
    ("deposit_crypto", "deposit");
    ("check_balance", "dashboard");
    ("check_portfolio", "dashboard");
    ("get_crypto_price", "supported_token_price");
    ("get_naira_rates", "naira_rates");
    ("transaction_history", "transaction_history");
    ("help", "help");
    ("support", "support");
    ("security_question", "security");
    ("feedback", "feedback");
    ("greeting", "greeting");
    ("spacewatch_leaderboard", "spacewatch_leaderboard");
    ("general_knowledge", "general_knowledge");
    ("realtime_crypto_news", "realtime") ].

(** [INTENT_MAPPING.get(label)] on a string label. *)
Definition mapping_lookup (label : string) : option string :=
  PyDict.get String.eqb INTENT_MAPPING label.

(** [INTENT_MAPPING.get(label, default)] on a string label. *)
Definition mapping_get_str (label default : string) : string :=
  PyDict.get_default String.eqb INTENT_MAPPING label default.

(** [INTENT_MAPPING.get(label, default)] on any value: hashing a list or a
    dict raises; a hashable value that is not a string is no key of the
    mapping.  [found] injects the mapped string into the type of the
    default. *)
Definition mapping_get {D : Type} (found : string -> D)
    (label : pyval) (default : D) : fallible D :=
  match label with
  | VList _ | VDict _ => inl (TypeError label)
  | VStr s =>
      inr (match mapping_lookup s with
           | Some c => found c
           | None => default
           end)
  | _ => inr default
  end.

(* ================================================================== *)
(** ** Requests, responses, results *)

(** A history turn in the typed view: a dict with string values, of which
    only the ["text"] entry is read.  What the functions do with turns of
    any other kind is in the raw view, [raw_compose_context] and what
    follows it. *)
Definition turn : Type := list (string * string).

Record request : Type := {
  url : string;
  inputs : string;
  candidate_labels : list string;
  multi_label : bool;
  headers : list (string * string);
  req_timeout : Z
}.

(** [json_body] is what [response.json()] returns, [None] when the body is
    not JSON. *)
Record response : Type := {
  status_code : Z;
  json_body : option pyval
}.

(** What the transformers zero-shot pipeline returns. *)
Record pipeline_output : Type := {
  sequence : string;
  labels : list string;
  scores : list Q
}.

(** The dict both functions return; an absent key is [None]. *)
Record classification : Type := {
  intent : string;
  confidence : Q;
  all_scores : list (pyval * Q);
  raw_label : option pyval;
  source : option string;
  error : option string
}.

Inductive event : Type :=
| EvPost (r : request)                       (* requests.post *)
| EvSleep (seconds : Z)                      (* time.sleep *)
| EvPipeline (text : string) (candidates : list string) (multi : bool).

Definition trace : Type := list event.

Definition is_post (ev : event) : bool :=
  match ev with EvPost _ => true | _ => false end.

(** Number of requests sent to the endpoint. *)
Definition post_count (tr : trace) : nat := length (filter is_post tr).

(** Everything the two functions take from their surroundings:
    the configuration read from the process environment;
    [post], standing for [requests.post], which gives the answer to a
    request knowing how many requests were sent before it;
    [classifier], the transformers pipeline object;
    [exn_str], Python's [str(e)];
    [float_of_str], Python's [float(s)] on a string, [None] being its
    [ValueError]. *)
Record environment : Type := {
  HF_API_URL : string;
  HF_MODEL : string;
  HF_API_TOKEN : string;
  post : nat -> request -> exn + response;
  classifier : string -> list string -> bool -> exn + pipeline_output;
  exn_str : exn -> string;
  float_of_str : string -> option Q
}.

(* ================================================================== *)
(** ** Effects: a trace and exceptions *)

Definition M (A : Type) : Type := trace -> (exn + A) * trace.

Definition ret {A : Type} (a : A) : M A := fun tr => (inr a, tr).

Definition raise {A : Type} (e : exn) : M A := fun tr => (inl e, tr).

Definition bind {A B : Type} (c : M A) (k : A -> M B) : M B :=
  fun tr =>
    match c tr with
    | (inl e, tr') => (inl e, tr')
    | (inr a, tr') => k a tr'
    end.

Definition lift {A : Type} (c : fallible A) : M A := fun tr => (c, tr).

(** [try: body  except Exception as e: handler(e)] *)
Definition try_except {A : Type} (body : M A) (handler : exn -> M A) : M A :=
  fun tr =>
    match body tr with
    | (inl e, tr') => handler e tr'
    | (inr a, tr') => (inr a, tr')
    end.

Notation "x <- c ;; k" := (bind c (fun x => k))
  (at level 61, c at next level, right associativity) : py_scope.
Notation "c ;; k" := (bind c (fun _ => k))
  (at level 61, right associativity) : py_scope.

Local Open Scope py_scope.

(* ================================================================== *)
(** ** The two classification functions *)

Section Service.

Variable E : environment.

(** [CLASSIFIER_URL = f"{HF_API_URL}/{HF_MODEL}"] *)
Definition CLASSIFIER_URL : string := (HF_API_URL E ++ "/" ++ HF_MODEL E)%string.

(** [requests.post(...)]: the request is logged, the endpoint answers. *)
Definition requests_post (r : request) : M response :=
  fun tr => (post E (post_count tr) r, tr ++ [EvPost r]).

(** [time.sleep(seconds)] *)
Definition time_sleep (seconds : Z) : M unit :=
  fun tr => (inr tt, tr ++ [EvSleep seconds]).

(** [classifier(text, candidates, multi_label=multi)] *)
Definition run_classifier (text : string) (candidates : list string)
    (multi : bool) : M pipeline_output :=
  fun tr => (classifier E text candidates multi,
             tr ++ [EvPipeline text candidates multi]).

(** [response.raise_for_status()] *)
Definition raise_for_status (r : response) : M unit :=
  if ((400 <=? status_code r) && (status_code r <? 600))%Z
  then raise (HTTPError (status_code r))
  else ret tt.

(** [response.json()] *)
Definition response_json (r : response) : M pyval :=
  match json_body r with
  | Some v => ret v
  | None => raise JSONDecodeError
  end.

(** [float(v)] *)
Definition py_float (v : pyval) : fallible Q :=
  match v with
  | VNum q => inr q
  | VBool b => inr (if b then 1 else 0)%Q
  | VStr s =>
      match float_of_str E s with
      | Some q => inr q
      | None => inl (FloatValueError s)
      end
  | _ => inl (TypeError v)
  end.

(** The message is falsy or strips to a falsy string. *)
Definition is_blank (message : string) : bool :=
  negb (PyStr.truthy message) || negb (PyStr.truthy (PyStr.strip message)).

(** Lines 91-97 of the remote path, 87-94 of the local path. *)
Definition compose_context (message : string) (history : option (list turn)) : string :=
  match history with
  | None | Some [] => message
  | Some history =>
      let recent_history :=
        if (3 <? length history)%nat then PyList.last_n 3 history else history in
      let context :=
        PyStr.join " "
          (map (fun h => PyDict.get_default String.eqb h "text" "")
               (PyList.last_n 2 recent_history)) in
      if PyStr.truthy context then (context ++ " " ++ message)%string else message
  end.

(** The request of lines 101-123. *)
Definition build_request (context_message : string) (timeout : Z) : request :=
  {| url := CLASSIFIER_URL;
     inputs := context_message;
     candidate_labels := INTENT_LABELS;
     multi_label := false;
     headers :=
       if PyStr.truthy (HF_API_TOKEN E)
       then [("Content-Type", "application/json");
             ("Authorization", ("Bearer " ++ HF_API_TOKEN E)%string)]
       else [("Content-Type", "application/json")];
     req_timeout := timeout |}.

(** Lines 118-139: the request, the single retry on 503, the status
    check and the JSON body. *)
Definition hf_fetch (context_message : string) (timeout : Z) : M pyval :=
  let r := build_request context_message timeout in
  response <- requests_post r ;;
  response <- (if (status_code response =? 503)%Z
               then time_sleep 2 ;; requests_post r
               else ret response) ;;
  raise_for_status response ;;
  response_json response.

(** The dict comprehension of lines 156-159, after [zip]. *)
Fixpoint hf_all_scores (pairs : list (pyval * pyval)) (acc : list (pyval * Q))
    : fallible (list (pyval * Q)) :=
  match pairs with
  | [] => inr acc
  | (label, score) :: rest =>
      let? key := mapping_get VStr label label in
      let? value := py_float score in
      hf_all_scores rest (PyDict.set py_key_eqb acc key value)
  end.

(** Lines 141-168. *)
Definition hf_normalize (result : pyval) : fallible classification :=
  let result :=
    match result with
    | VList (x :: _) => x
    | _ => result
    end in
  match result with
  | VDict items =>
      match PyDict.get String.eqb items "labels" with
      | None => inl (UnexpectedFormat result)
      | Some result_labels =>
          let? top_intent_label := subscript0 result_labels in
          let? result_scores :=
            match PyDict.get String.eqb items "scores" with
            | Some v => inr v
            | None => inl (KeyError (VStr "scores"))
            end in
          let? top_confidence := subscript0 result_scores in
          let? intent := mapping_get (fun c => c) top_intent_label "general" in
          let? ls := py_iter result_labels in
          let? ss := py_iter result_scores in
          let? all_scores := hf_all_scores (combine ls ss) [] in
          let? confidence := py_float top_confidence in
          inr {| intent := intent;
                 confidence := confidence;
                 all_scores := all_scores;
                 raw_label := Some top_intent_label;
                 source := Some "hf_api";
                 error := None |}
      end
  | _ => inl (UnexpectedFormat result)
  end.

(** The body of the [try] of the remote path. *)
Definition hf_try (context_message : string) (timeout : Z) : M classification :=
  result <- hf_fetch context_message timeout ;;
  lift (hf_normalize result).

Definition hf_failure (description : string) : classification :=
  {| intent := "general";
     confidence := 0;
     all_scores := [];
     raw_label := None;
     source := Some "hf_api";
     error := Some description |}.

(** [classify_intent_hf(message, history, timeout)] *)
Definition classify_intent_hf (message : string) (history : option (list turn))
    (timeout : Z) : M classification :=
  if is_blank message then ret (hf_failure "Empty message")
  else
    let context_message := compose_context message history in
    try_except (hf_try context_message timeout)
      (fun e =>
         match class_of e with
         | CTimeout => ret (hf_failure "Request timeout")
         | CRequestException => ret (hf_failure (exn_str E e))
         | CException => ret (hf_failure (exn_str E e))
         end).

(** Lines 100-118 of the local path. *)
Definition local_normalize (result : pipeline_output) : fallible classification :=
  let? top_intent_label :=
    match PyList.first (labels result) with
    | Some l => inr l
    | None => inl IndexError
    end in
  let? top_confidence :=
    match PyList.first (scores result) with
    | Some s => inr s
    | None => inl IndexError
    end in
  let intent := mapping_get_str top_intent_label "general" in
  let all_scores :=
    PyDict.of_items py_key_eqb
      (map (fun ls => (VStr (mapping_get_str (fst ls) (fst ls)), snd ls))
           (combine (labels result) (scores result))) in
  inr {| intent := intent;
         confidence := top_confidence;
         all_scores := all_scores;
         raw_label := Some (VStr top_intent_label);
         source := None;
         error := None |}.

(** The body of the [try] of the local path. *)
Definition local_try (context_message : string) : M classification :=
  result <- run_classifier context_message INTENT_LABELS false ;;
  lift (local_normalize result).

(** [classify_intent(message, history)] *)
Definition classify_intent (message : string) (history : option (list turn))
    : M classification :=
  if is_blank message
  then ret {| intent := "general"; confidence := 0; all_scores := [];
              raw_label := None; source := None; error := None |}
  else
    let context_message := compose_context message history in
    try_except (local_try context_message)
      (fun e =>
         ret {| intent := "general"; confidence := 0; all_scores := [];
                raw_label := None; source := None;
                error := Some (exn_str E e) |}).

End Service.

(* ================================================================== *)
(** ** Notions used to state the properties *)

(** What the classifier contract calls a ranked list of (label, score). *)
Definition ranking : Type := list (string * Q).

(** The key under which [all_scores] files a raw label:
    [INTENT_MAPPING.get(label, label)]. *)
Definition scores_key (label : string) : string := mapping_get_str label label.

(** The items the dict comprehension goes through for a ranking. *)
Definition scores_items (r : ranking) : list (string * Q) :=
  map (fun p => (scores_key (fst p), snd p)) r.

(** [v] is a dict holding the ranking under ["labels"] and ["scores"]. *)
Definition ranked_dict (r : ranking) (v : pyval) : Prop :=
  exists items,
    v = VDict items /\
    PyDict.get String.eqb items "labels" = Some (VList (map (fun p => VStr (fst p)) r)) /\
    PyDict.get String.eqb items "scores" = Some (VList (map (fun p => VNum (snd p)) r)).

(** The two shapes of a well-formed answer of the endpoint: the dict, or a
    list whose first element is the dict. *)
Definition json_ranking (r : ranking) (body : pyval) : Prop :=
  ranked_dict r body \/
  exists d rest, body = VList (d :: rest) /\ ranked_dict r d.

(** The pipeline returned the ranking. *)
Definition pipeline_ranking (r : ranking) (out : pipeline_output) : Prop :=
  labels out = map fst r /\ scores out = map snd r.

(** The ranking covers the label set. *)
Definition covers_labels (r : ranking) : Prop :=
  forall l, In l INTENT_LABELS -> In l (map fst r).

(** The ranking is over the label set and nothing else. *)
Definition over_labels (r : ranking) : Prop :=
  forall l, In l (map fst r) <-> In l INTENT_LABELS.

(** The score of the last entry of the ranking whose raw label the Intent
    Mapping sends to [c]. *)
Fixpoint last_score_mapped_to (c : string) (r : ranking) : option Q :=
  match r with
  | [] => None
  | (l, s) :: rest =>
      match last_score_mapped_to c rest with
      | Some v => Some v
      | None =>
          match mapping_lookup l with
          | Some c' => if String.eqb c' c then Some s else None
          | None => None
          end
      end
  end.

(** The texts handed to the classifier along a trace. *)
Fixpoint sent_texts (tr : trace) : list string :=
  match tr with
  | [] => []
  | EvPost r :: tr' => inputs r :: sent_texts tr'
  | EvPipeline text _ _ :: tr' => text :: sent_texts tr'
  | EvSleep _ :: tr' => sent_texts tr'
  end.

(** *** Context composition as the specification words it *)

(** The last [n] turns, all of them when there are fewer. *)
Definition last_turns {A : Type} (n : nat) (l : list A) : list A :=
  rev (firstn n (rev l)).

(** The text field of a turn, the empty string when it is missing. *)
Definition text_field (h : turn) : string :=
  match find (fun kv => String.eqb (fst kv) "text") h with
  | Some kv => snd kv
  | None => ""
  end.

(** Section 4.1 of the specification, read literally. *)
Definition composed_text_spec (message : string) (history : option (list turn)) : string :=
  match history with
  | None => message
  | Some [] => message
  | Some turns =>
      let window := last_turns 3 turns in
      let joined := PyStr.join " " (map text_field (last_turns 2 window)) in
      if String.eqb joined "" then message else (joined ++ " " ++ message)%string
  end.

(** The result of a successful classification of a ranking whose top entry
    is [(l0, s0)]; [src] is the ["source"] entry. *)
Definition ranked_result (src : option string) (r : ranking) (l0 : string) (s0 : Q)
    : classification :=
  {| intent := mapping_get_str l0 "general";
     confidence := s0;
     all_scores := PyDict.embed VStr (PyDict.of_items String.eqb (scores_items r));
     raw_label := Some (VStr l0);
     source := src;
     error := None |}.

(** The degraded result of the local path. *)
Definition local_failure (description : option string) : classification :=
  {| intent := "general"; confidence := 0; all_scores := [];
     raw_label := None; source := None; error := description |}.

(** The [error] entry the handlers of the remote path write for [e]. *)
Definition hf_error_text (E : environment) (e : exn) : string :=
  match class_of e with
  | CTimeout => "Request timeout"
  | _ => exn_str E e
  end.

(** What [raise_for_status] followed by [json] makes of a response. *)
Definition checked_body (resp : response) : fallible pyval :=
  if ((400 <=? status_code resp) && (status_code resp <? 600))%Z
  then inl (HTTPError (status_code resp))
  else match json_body resp with
       | Some v => inr v
       | None => inl JSONDecodeError
       end.

(** The request [classify_intent_hf] sends for a message and a history. *)
Definition hf_request (E : environment) (message : string)
    (history : option (list turn)) (timeout : Z) : request :=
  build_request E (compose_context message history) timeout.

(** The call of the local pipeline for a message and a history. *)
Definition pipeline_call (message : string) (history : option (list turn)) : event :=
  EvPipeline (compose_context message history) INTENT_LABELS false.

(** The gateway of the remote path comes back with the ranking [r],
    leaving the trace [tr']. *)
Definition hf_answers (E : environment) (message : string)
    (history : option (list turn)) (timeout : Z) (tr : trace)
    (r : ranking) (tr' : trace) : Prop :=
  exists body,
    hf_fetch E (compose_context message history) timeout tr = (inr body, tr') /\
    json_ranking r body.

(** The local pipeline comes back with the ranking [r]. *)
Definition pipeline_answers (E : environment) (message : string)
    (history : option (list turn)) (r : ranking) : Prop :=
  exists out,
    classifier E (compose_context message history) INTENT_LABELS false = inr out /\
    pipeline_ranking r out.

(** [all_scores] holds one entry for each canonical intent of the label
    set and nothing else, each with the score written last. *)
Definition canonical_scores (r : ranking) (d : list (pyval * Q)) : Prop :=
  (forall k, In k (PyDict.keys d) <->
             exists l c, In l INTENT_LABELS /\ mapping_lookup l = Some c /\ k = VStr c) /\
  NoDup (PyDict.keys d) /\
  length d <= length INTENT_LABELS /\
  (forall c, PyDict.get py_key_eqb d (VStr c) = last_score_mapped_to c r).

(** What the code does with raw labels the Intent Mapping does not know:
    ["general"] for the selected intent, the raw label itself as the key in
    [all_scores]. *)
Definition raw_key_fallback (r : ranking) (result : classification) : Prop :=
  (forall l0 s0, PyList.first r = Some (l0, s0) ->
                 mapping_lookup l0 = None -> intent result = "general") /\
  (forall l, In l (map fst r) -> mapping_lookup l = None ->
             In (VStr l) (PyDict.keys (all_scores result)) /\
             exists s,
               PyDict.get py_key_eqb (all_scores result) (VStr l) = Some s /\
               PyDict.last_value String.eqb (scores_items r) l = Some s).

(** The selected intent and confidence come from the top entry
    [(l0, s0)], the entry of [all_scores] under that intent from the last
    entry of [rest] filed under it. *)
Definition takes_last_score (l0 : string) (s0 : Q) (rest : ranking)
    (result : classification) : Prop :=
  intent result = mapping_get_str l0 "general" /\
  confidence result = s0 /\
  exists l s,
    In (l, s) rest /\
    scores_key l = intent result /\
    PyDict.last_value String.eqb (scores_items rest) (intent result) = Some s /\
    PyDict.get py_key_eqb (all_scores result) (VStr (intent result)) = Some s.

(** Decision procedures for [covers_labels] and [over_labels]. *)
Definition covers_labelsb (r : ranking) : bool :=
  forallb (fun l => existsb (String.eqb l) (map fst r)) INTENT_LABELS.

Definition over_labelsb (r : ranking) : bool :=
  covers_labelsb r
  && forallb (fun l => existsb (String.eqb l) INTENT_LABELS) (map fst r).

(** *** Test doubles *)

Definition plain_exn_str (e : exn) : string :=
  match e with
  | Timeout d | RequestException d | Exception d | FloatValueError d => d
  | HTTPError _ => "HTTP error"
  | JSONDecodeError => "invalid JSON"
  | UnexpectedFormat _ => "Unexpected API response format"
  | KeyError _ => "key error"
  | IndexError => "index out of range"
  | TypeError _ => "type error"
  | AttributeError _ => "attribute error"
  end.

(** An environment around a scripted endpoint and a scripted pipeline. *)
Definition mock_env (p : nat -> request -> exn + response)
    (c : string -> list string -> bool -> exn + pipeline_output) : environment :=
  {| HF_API_URL := "https://api-inference.huggingface.co/models";
     HF_MODEL := "facebook/bart-large-mnli";
     HF_API_TOKEN := "";
     post := p;
     classifier := c;
     exn_str := plain_exn_str;
     float_of_str := fun _ => None |}.

Definition ranked_body (r : ranking) : pyval :=
  VDict [ ("sequence", VStr "");
          ("labels", VList (map (fun p => VStr (fst p)) r));
          ("scores", VList (map (fun p => VNum (snd p)) r)) ].

Definition ok_response (r : ranking) : response :=
  {| status_code := 200; json_body := Some (ranked_body r) |}.

Definition loading_response : response :=
  {| status_code := 503; json_body := None |}.

Definition ranked_output (r : ranking) : pipeline_output :=
  {| sequence := ""; labels := map fst r; scores := map snd r |}.

(** A ranking of the whole label set, balance first. *)
Definition balance_ranking : ranking :=
  [ ("check_balance", (1 # 2)%Q); ("check_portfolio", (3 # 10)%Q);
    ("transaction_history", (1 # 20)%Q); ("get_crypto_price", (1 # 25)%Q);
    ("sell_crypto", (1 # 50)%Q); ("deposit_crypto", (1 # 50)%Q);
    ("get_naira_rates", (1 # 100)%Q); ("help", (1 # 100)%Q); ("support", (1 # 100)%Q);
    ("security_question", (1 # 100)%Q); ("feedback", (1 # 200)%Q);
    ("greeting", (1 # 200)%Q); ("spacewatch_leaderboard", (1 # 200)%Q);
    ("general_knowledge", (1 # 400)%Q); ("realtime_crypto_news", (1 # 400)%Q) ].

(** A ranking whose top label the Intent Mapping does not know. *)
Definition foreign_ranking : ranking :=
  [ ("mystery", (9 # 10)%Q); ("greeting", (1 # 10)%Q) ].

Definition always_ok (r : ranking) : nat -> request -> exn + response :=
  fun _ _ => inr (ok_response r).

Definition loading_once (r : ranking) : nat -> request -> exn + response :=
  fun n _ => match n with O => inr loading_response | _ => inr (ok_response r) end.

Definition always_loading : nat -> request -> exn + response :=
  fun _ _ => inr loading_response.

Definition always_timeout : nat -> request -> exn + response :=
  fun _ _ => inl (Timeout "read timed out").

Definition pipeline_ok (r : ranking) : string -> list string -> bool -> exn + pipeline_output :=
  fun _ _ _ => inr (ranked_output r).

Definition pipeline_down : string -> list string -> bool -> exn + pipeline_output :=
  fun _ _ _ => inl (Exception "CUDA out of memory").

Definition turn_of (text : string) : turn := [("text", text)].

(** A turn without a text. *)
Definition textless_turn : turn := [("role", "user")].

(** The endpoint and the pipeline both return [balance_ranking]. *)
Definition balance_env : environment :=
  mock_env (always_ok balance_ranking) (pipeline_ok balance_ranking).

(** The endpoint and the pipeline both return [foreign_ranking]. *)
Definition foreign_env : environment :=
  mock_env (always_ok foreign_ranking) (pipeline_ok foreign_ranking).

(** The model is loading at the first request only. *)
Definition loading_env : environment :=
  mock_env (loading_once balance_ranking) pipeline_down.

Definition timeout_env : environment := mock_env always_timeout pipeline_down.

(** The endpoint answers 200 with a JSON error object. *)
Definition rate_limited : response :=
  {| status_code := 200;
     json_body := Some (VDict [("error", VStr "Rate limit reached")]) |}.

Definition malformed_env : environment :=
  mock_env (fun _ _ => inr rate_limited) pipeline_down.

(* ================================================================== *)
(** ** The web endpoint ([intent-classifier/app.py]) *)

(** The body of a POST to [/classify]. *)
Record ClassificationRequest : Type := {
  req_message : string;
  req_history : option (list turn)
}.

(** The response model: [all_scores] is a [Dict[str, float]], [raw_label]
    and [error] are optional strings. *)
Record ClassificationResponse : Type := {
  resp_intent : string;
  resp_confidence : Q;
  resp_all_scores : list (string * Q);
  resp_raw_label : option string;
  resp_error : option string
}.

(** [HTTPException(status_code=..., detail=...)] *)
Record http_exception : Type := {
  exc_status : Z;
  exc_detail : string
}.

(** The items of a dict whose keys are all strings. *)
Fixpoint str_items (d : list (pyval * Q)) : option (list (string * Q)) :=
  match d with
  | [] => Some []
  | (VStr k, v) :: d' =>
      match str_items d' with
      | Some items => Some ((k, v) :: items)
      | None => None
      end
  | _ :: _ => None
  end.

(** The fields of a result whose values already have the types the
    response model declares; the entries [source] and [request_time_ms],
    which the model does not declare, are ignored. *)
Definition typed_fields (result : classification) : option ClassificationResponse :=
  match str_items (all_scores result) with
  | Some items =>
      match raw_label result with
      | None =>
          Some {| resp_intent := intent result;
                  resp_confidence := confidence result;
                  resp_all_scores := items;
                  resp_raw_label := None;
                  resp_error := error result |}
      | Some (VStr l) =>
          Some {| resp_intent := intent result;
                  resp_confidence := confidence result;
                  resp_all_scores := items;
                  resp_raw_label := Some l;
                  resp_error := error result |}
      | Some _ => None
      end
  | None => None
  end.

(** The response model built from the keys of the result dict.  Values of
    the declared types are taken as they are; whether a key or a raw label that is not a string is
    coerced or rejected depends on the validation library, and is left to
    [coerce]. *)
Definition ClassificationResponse_init
    (coerce : classification -> fallible ClassificationResponse)
    (result : classification) : fallible ClassificationResponse :=
  match typed_fields result with
  | Some response => inr response
  | None => coerce result
  end.

(** The handler of [POST /classify]; [inl] is the [HTTPException] it
    raises. *)
Definition app_classify (E : environment)
    (coerce : classification -> fallible ClassificationResponse)
    (request : ClassificationRequest) : M (http_exception + ClassificationResponse) :=
  try_except
    (result <- classify_intent_hf E (req_message request) (req_history request) 5 ;;
     response <- lift (ClassificationResponse_init coerce result) ;;
     ret (inr response))
    (fun e => ret (inl {| exc_status := 500; exc_detail := exn_str E e |})).

(** The handler of [GET /health]. *)
Definition app_health : list (string * string) :=
  [("status", "healthy"); ("service", "intent-classifier")].

(* ================================================================== *)
(** ** Configuration of the local path (lines 18-20) *)

(** [c.lower()] on a code point below 256. *)
Definition lower_char (c : ascii) : ascii :=
  let n := N_of_ascii c in
  if (((65 <=? n) && (n <=? 90))
      || ((192 <=? n) && (n <=? 222) && negb (n =? 215)))%N
  then ascii_of_N (n + 32)
  else c.

(** [s.lower()] *)
Fixpoint py_lower (s : string) : string :=
  match s with
  | EmptyString => EmptyString
  | String c s' => String (lower_char c) (py_lower s')
  end.

(** [os.getenv(name, default)] in a process environment. *)
Definition getenv (environ : list (string * string)) (name default : string) : string :=
  PyDict.get_default String.eqb environ name default.

Definition MODEL_NAME (environ : list (string * string)) : string :=
  getenv environ "INTENT_MODEL" "MoritzLaurer/DeBERTa-v3-base-mnli-fever-anli".

Definition USE_GPU (environ : list (string * string)) : bool :=
  String.eqb (py_lower (getenv environ "USE_GPU" "false")) "true".

Definition DEVICE (environ : list (string * string)) : Z :=
  if USE_GPU environ then 0%Z else (-1)%Z.

(* ================================================================== *)
(** ** The demonstration loops under [__main__] *)

(** [for msg in msgs: result = f(msg); ...]: the calls one after the other,
    with what each returned. *)
Fixpoint classify_each {A : Type} (f : string -> M A) (msgs : list string)
    : M (list (string * A)) :=
  match msgs with
  | [] => ret []
  | msg :: rest =>
      result <- f msg ;;
      others <- classify_each f rest ;;
      ret ((msg, result) :: others)
  end.

Definition hf_test_messages : list string :=
  [ "what's the price of bitcoin?"; "I want to sell 100 USDT";
    "show my balance"; "hello"; "how much is ethereum worth?";
    "check my portfolio"; "what are the naira rates?" ].

Definition local_test_messages : list string :=
  [ "what's the price of bitcoin?"; "I want to sell 100 USDT";
    "show my balance"; "hello"; "how much is ethereum worth?" ].

(** The loop of [hf_intent_classifier.py]. *)
Definition hf_main (E : environment) : M (list (string * classification)) :=
  classify_each (fun msg => classify_intent_hf E msg None 5) hf_test_messages.

(** The loop of [intent_classifier.py]. *)
Definition local_main (E : environment) : M (list (string * classification)) :=
  classify_each (fun msg => classify_intent E msg None) local_test_messages.

(* ================================================================== *)
(** ** Further notions and test doubles *)

(** [v] is a dict holding the labels [ls] and the scores [ss], lists that
    need not be of the same length. *)
Definition listed_dict (ls : list string) (ss : list Q) (v : pyval) : Prop :=
  exists items,
    v = VDict items /\
    PyDict.get String.eqb items "labels" = Some (VList (map VStr ls)) /\
    PyDict.get String.eqb items "scores" = Some (VList (map VNum ss)).

(** The first answer of the endpoint to the request [r] is a loading
    signal. *)
Definition loading_first (E : environment) (tr : trace) (r : request) : Prop :=
  exists resp, post E (post_count tr) r = inr resp /\ status_code resp = 503%Z.

(** The degraded shape: the fallback intent, no confidence, no scores, no
    raw label. *)
Definition degraded (result : classification) : Prop :=
  intent result = "general" /\
  confidence result = 0%Q /\
  all_scores result = [] /\
  raw_label result = None.

(** The answer once the list around it, if any, is taken off (lines
    142-143). *)
Definition unwrapped (body : pyval) : pyval :=
  match body with
  | VList (x :: _) => x
  | _ => body
  end.

(** The canonical intents, each once, in the order of the Intent Mapping. *)
Definition canonical_intents : list string :=
  nodup string_dec (map snd INTENT_MAPPING).

(** A validation that rejects whatever is not of the declared types. *)
Definition strict_validation : classification -> fallible ClassificationResponse :=
  fun _ => inl (Exception "validation error").

(** The endpoint answers 500 to every request. *)
Definition server_error_env : environment :=
  mock_env (fun _ _ => inr {| status_code := 500; json_body := None |}) pipeline_down.

(** The endpoint ranks three labels and scores two. *)
Definition short_scores_body : pyval :=
  VDict [ ("labels", VList [VStr "greeting"; VStr "help"; VStr "support"]);
          ("scores", VList [VNum (7 # 10)%Q; VNum (2 # 10)%Q]) ].

Definition short_scores_env : environment :=
  mock_env (fun _ _ => inr {| status_code := 200; json_body := Some short_scores_body |})
           (fun _ _ _ => inr {| sequence := "";
                                labels := ["greeting"; "help"; "support"];
                                scores := [(7 # 10)%Q; (2 # 10)%Q] |}).

(** The endpoint ranks a number where a label is expected. *)
Definition numeric_label_env : environment :=
  mock_env (fun _ _ => inr {| status_code := 200;
                              json_body := Some (VDict [ ("labels", VList [VNum 1]);
                                                         ("scores", VList [VNum (9 # 10)%Q]) ]) |})
           pipeline_down.

(* ================================================================== *)
(** ** The raw view of the history *)

(** [h.get("text", "")] on any value: only a dict has [get]. *)
Definition turn_text (h : pyval) : fallible pyval :=
  match h with
  | VDict items =>
      inr (PyDict.get_default String.eqb items "text" (VStr ""))
  | _ => inl (AttributeError h)
  end.

(** The list comprehension [[h.get("text", "") for h in turns]]. *)
Fixpoint turn_texts (turns : list pyval) : fallible (list pyval) :=
  match turns with
  | [] => inr []
  | h :: rest =>
      let? text := turn_text h in
      let? texts := turn_texts rest in
      inr (text :: texts)
  end.

(** The items [join] accepts: strings only, the first other item raising
    its [TypeError]. *)
Fixpoint str_values (values : list pyval) : fallible (list string) :=
  match values with
  | [] => inr []
  | VStr s :: rest =>
      let? strings := str_values rest in
      inr (s :: strings)
  | v :: _ => inl (TypeError v)
  end.

(** [sep.join(values)] *)
Definition join_values (sep : string) (values : list pyval) : fallible string :=
  let? strings := str_values values in
  inr (PyStr.join sep strings).

(** Lines 91-97 of the remote path, 87-94 of the local path, on a history
    of arbitrary values. *)
Definition raw_compose_context (message : string) (history : option (list pyval))
    : fallible string :=
  match history with
  | None | Some [] => inr message
  | Some history =>
      let recent_history :=
        if (3 <? length history)%nat then PyList.last_n 3 history else history in
      let? texts := turn_texts (PyList.last_n 2 recent_history) in
      let? context := join_values " " texts in
      inr (if PyStr.truthy context then (context ++ " " ++ message)%string
           else message)
  end.

(** [classify_intent_hf(message, history, timeout)] on a history of
    arbitrary values: the composition is not inside the [try]. *)
Definition classify_intent_hf_raw (E : environment) (message : string)
    (history : option (list pyval)) (timeout : Z) : M classification :=
  if is_blank message then ret (hf_failure "Empty message")
  else
    context_message <- lift (raw_compose_context message history) ;;
    try_except (hf_try E context_message timeout)
      (fun e =>
         match class_of e with
         | CTimeout => ret (hf_failure "Request timeout")
         | CRequestException => ret (hf_failure (exn_str E e))
         | CException => ret (hf_failure (exn_str E e))
         end).

(** [classify_intent(message, history)] on a history of arbitrary values. *)
Definition classify_intent_raw (E : environment) (message : string)
    (history : option (list pyval)) : M classification :=
  if is_blank message
  then ret {| intent := "general"; confidence := 0; all_scores := [];
              raw_label := None; source := None; error := None |}
  else
    context_message <- lift (raw_compose_context message history) ;;
    try_except (local_try E context_message)
      (fun e =>
         ret {| intent := "general"; confidence := 0; all_scores := [];
                raw_label := None; source := None;
                error := Some (exn_str E e) |}).

(** A typed turn as the value it is. *)
Definition raw_turn (h : turn) : pyval :=
  VDict (map (fun kv => (fst kv, VStr (snd kv))) h).

Definition raw_history (history : option (list turn)) : option (list pyval) :=
  option_map (map raw_turn) history.

(** The turn is a dict whose ["text"], if it has one, is a string. *)
Definition text_ok (h : pyval) : bool :=
  match h with
  | VDict items =>
      match PyDict.get String.eqb items "text" with
      | None | Some (VStr _) => true
      | Some _ => false
      end
  | _ => false
  end.


(** The two turns the composition reads are dicts with a string text or
    none. *)
Definition readable (history : option (list pyval)) : bool :=
  match history with
  | None => true
  | Some turns => forallb text_ok (PyList.last_n 2 turns)
  end.




(** The body of a POST to [/classify] as the request model admits it: the
    turns are dicts, with values of any kind. *)
Record RawClassificationRequest : Type := {
  raw_message : string;
  raw_turns : option (list (list (string * pyval)))
}.

(** The history the handler passes on. *)
Definition request_history (request : RawClassificationRequest) : option (list pyval) :=
  option_map (map VDict) (raw_turns request).

(** The handler of [POST /classify] on such a body. *)
Definition app_classify_raw (E : environment)
    (coerce : classification -> fallible ClassificationResponse)
    (request : RawClassificationRequest) : M (http_exception + ClassificationResponse) :=
  try_except
    (result <- classify_intent_hf_raw E (raw_message request) (request_history request) 5 ;;
     response <- lift (ClassificationResponse_init coerce result) ;;
     ret (inr response))
    (fun e => ret (inl {| exc_status := 500; exc_detail := exn_str E e |})).


(** The whole label set, and one label more. *)
Definition extended_ranking : ranking :=
  balance_ranking ++ [("mystery", (1 # 1000)%Q)].

Definition extended_env : environment :=
  mock_env (always_ok extended_ranking) (pipeline_ok extended_ranking).

(* ================================================================== *)
(** ** Facts about strings and lists *)

Module PyStrFacts.
Import PyStr.

Lemma truthy_false (s : string) : truthy s = false <-> s = "".
Proof. destruct s; simpl; split; congruence. Qed.

Lemma lstrip_blank (s : string) :
  whitespace_only s = true -> lstrip s = "".
Proof.
  unfold whitespace_only.
  induction s as [|c s IH]; simpl; [reflexivity|].
  intros H. apply andb_prop in H as [Hc Hs]. rewrite Hc. auto.
Qed.

Lemma lstrip_not_blank (s : string) :
  whitespace_only s = false ->
  exists c s', lstrip s = String c s' /\ is_space c = false.
Proof.
  unfold whitespace_only.
  induction s as [|c s IH]; simpl; [discriminate|].
  destruct (is_space c) eqn:Hc; simpl; [exact IH|].
  intros _. exists c, s. split; [reflexivity | exact Hc].
Qed.

Lemma rstrip_keeps_head (c : ascii) (s : string) :
  is_space c = false -> rstrip (String c s) <> "".
Proof.
  intros Hc. simpl. destruct (rstrip s); [rewrite Hc|]; discriminate.
Qed.

(** [s.strip()] is empty exactly for the strings made of white space. *)
Lemma strip_empty_iff (s : string) :
  strip s = "" <-> whitespace_only s = true.
Proof.
  unfold strip. split.
  - intros H. destruct (whitespace_only s) eqn:Hw; [reflexivity|].
    destruct (lstrip_not_blank s Hw) as (c & s' & Hl & Hc).
    rewrite Hl in H. now apply rstrip_keeps_head in H.
  - intros Hw. now rewrite lstrip_blank.
Qed.

End PyStrFacts.

Module PyListFacts.
Import PyList.

Lemma last_n_short {A : Type} (n : nat) (l : list A) :
  length l <= n -> last_n n l = l.
Proof.
  intros H. unfold last_n.
  replace (length l - n) with 0 by lia. reflexivity.
Qed.

Lemma last_n_app {A : Type} (front back : list A) :
  last_n (length back) (front ++ back) = back.
Proof.
  unfold last_n. rewrite length_app.
  replace (length front + length back - length back) with (length front) by lia.
  rewrite skipn_app, skipn_all, Nat.sub_diag. reflexivity.
Qed.

(** Trimming to the last [m] turns first does not change the last [n]
    of them, as long as [n <= m]. *)
Lemma last_n_last_n {A : Type} (n m : nat) (l : list A) :
  n <= m -> last_n n (last_n m l) = last_n n l.
Proof.
  intros H. unfold last_n. rewrite length_skipn, skipn_skipn.
  f_equal. lia.
Qed.

Lemma last_n_rev {A : Type} (n : nat) (l : list A) :
  last_n n l = rev (firstn n (rev l)).
Proof.
  unfold last_n. rewrite firstn_rev, rev_involutive. reflexivity.
Qed.

End PyListFacts.

(* ================================================================== *)
(** ** Facts about dicts *)

Module PyDictFacts.
Import PyDict.

Section Facts.

Context {K V : Type}.
Variable eqb : K -> K -> bool.
Hypothesis eqb_eq : forall a b, eqb a b = true <-> a = b.

Lemma eqb_refl (a : K) : eqb a a = true.
Proof. now apply eqb_eq. Qed.

Lemma get_set (d : dict (K:=K) (V:=V)) (k k' : K) (v : V) :
  get eqb (set eqb d k v) k' = if eqb k k' then Some v else get eqb d k'.
Proof.
  induction d as [|[k0 v0] d IH]; simpl; [reflexivity|].
  destruct (eqb k0 k) eqn:H0; simpl.
  - apply eqb_eq in H0. subst k0. destruct (eqb k k'); reflexivity.
  - destruct (eqb k0 k') eqn:H1; [|exact IH].
    apply eqb_eq in H1. subst k0.
    destruct (eqb k k') eqn:H2; [|reflexivity].
    apply eqb_eq in H2. subst k'. rewrite eqb_refl in H0. discriminate.
Qed.

Lemma keys_set (d : dict (K:=K) (V:=V)) (k k' : K) (v : V) :
  In k' (keys (set eqb d k v)) <-> k' = k \/ In k' (keys d).
Proof.
  unfold keys. induction d as [|[k0 v0] d IH]; simpl.
  - intuition.
  - destruct (eqb k0 k) eqn:H0; simpl.
    + apply eqb_eq in H0. subst k0. intuition.
    + rewrite IH. intuition.
Qed.

Lemma NoDup_keys_set (d : dict (K:=K) (V:=V)) (k : K) (v : V) :
  NoDup (keys d) -> NoDup (keys (set eqb d k v)).
Proof.
  unfold keys. induction d as [|[k0 v0] d IH]; simpl; intros H.
  - constructor; [intros [] | constructor].
  - inversion H as [|? ? Hnot Hrest]; subst.
    destruct (eqb k0 k) eqn:H0; simpl.
    + constructor; assumption.
    + constructor; [|auto].
      intros Hin. apply (keys_set d k k0 v) in Hin as [->|Hin].
      * rewrite eqb_refl in H0. discriminate.
      * exact (Hnot Hin).
Qed.

Lemma keys_fill (items : list (K * V)) (d : dict) (k : K) :
  In k (keys (fill eqb items d)) <-> In k (map fst items) \/ In k (keys d).
Proof.
  unfold fill. revert d.
  induction items as [|[k0 v0] items IH]; simpl; intros d.
  - intuition.
  - rewrite IH, keys_set. intuition.
Qed.

Lemma NoDup_keys_fill (items : list (K * V)) (d : dict) :
  NoDup (keys d) -> NoDup (keys (fill eqb items d)).
Proof.
  unfold fill. revert d.
  induction items as [|[k0 v0] items IH]; simpl; intros d H; [exact H|].
  apply IH, NoDup_keys_set, H.
Qed.

Lemma get_fill (items : list (K * V)) (d : dict) (k : K) :
  get eqb (fill eqb items d) k =
  match last_value eqb items k with
  | Some v => Some v
  | None => get eqb d k
  end.
Proof.
  unfold fill. revert d.
  induction items as [|[k0 v0] items IH]; simpl; intros d; [reflexivity|].
  rewrite IH, get_set.
  destruct (last_value eqb items k); [reflexivity|].
  destruct (eqb k0 k); reflexivity.
Qed.

(** Keys of a comprehension: exactly the keys of its items. *)
Lemma keys_of_items (items : list (K * V)) (k : K) :
  In k (keys (of_items eqb items)) <-> In k (map fst items).
Proof.
  unfold of_items.
  rewrite keys_fill. simpl. intuition.
Qed.

(** One entry per key. *)
Lemma NoDup_keys_of_items (items : list (K * V)) :
  NoDup (keys (of_items eqb items)).
Proof.
  unfold of_items.
  apply NoDup_keys_fill. constructor.
Qed.

(** Last write wins, in the order of the items. *)
Lemma get_of_items (items : list (K * V)) (k : K) :
  get eqb (of_items eqb items) k = last_value eqb items k.
Proof.
  unfold of_items.
  rewrite get_fill. now destruct (last_value eqb items k).
Qed.

Lemma last_value_in (items : list (K * V)) (k : K) (v : V) :
  last_value eqb items k = Some v -> In (k, v) items.
Proof.
  induction items as [|[k0 v0] items IH]; simpl; [discriminate|].
  destruct (last_value eqb items k) eqn:Hl.
  - intros H. injection H as ->. right. now apply IH.
  - destruct (eqb k0 k) eqn:H0; [|discriminate].
    intros H. injection H as ->. apply eqb_eq in H0. subst. now left.
Qed.

Lemma last_value_some (items : list (K * V)) (k : K) :
  In k (map fst items) -> exists v, last_value eqb items k = Some v.
Proof.
  induction items as [|[k0 v0] items IH]; simpl; [intros []|].
  intros [->|Hin].
  - destruct (last_value eqb items k) as [v|]; [now exists v|].
    rewrite eqb_refl. now exists v0.
  - destruct (IH Hin) as [v ->]. now exists v.
Qed.

End Facts.

Section Embedding.

(** When the embedding of the keys respects key equality, updates
    commute with it. *)
Context {K K' V : Type}.
Variable eqb : K -> K -> bool.
Variable eqb' : K' -> K' -> bool.
Variable f : K -> K'.
Hypothesis f_eqb : forall a b, eqb' (f a) (f b) = eqb a b.

Lemma set_embed (d : list (K * V)) (k : K) (v : V) :
  set eqb' (embed f d) (f k) v = embed f (set eqb d k v).
Proof.
  induction d as [|[k0 v0] d IH]; simpl; [reflexivity|].
  rewrite f_eqb. destruct (eqb k0 k); simpl; [reflexivity|].
  now rewrite IH.
Qed.

Lemma fill_embed (items d : list (K * V)) :
  fill eqb' (embed f items) (embed f d) = embed f (fill eqb items d).
Proof.
  unfold fill. revert d.
  induction items as [|[k0 v0] items IH]; simpl; intros d; [reflexivity|].
  rewrite set_embed. apply IH.
Qed.

Lemma of_items_embed (items : list (K * V)) :
  of_items eqb' (embed f items) = embed f (of_items eqb items).
Proof. exact (fill_embed items []). Qed.

Lemma get_embed (d : list (K * V)) (k : K) :
  get eqb' (embed f d) (f k) = get eqb d k.
Proof.
  induction d as [|[k0 v0] d IH]; simpl; [reflexivity|].
  rewrite f_eqb. now rewrite IH.
Qed.

Lemma keys_embed (d : list (K * V)) :
  keys (embed f d) = map f (keys d).
Proof. unfold keys, embed. rewrite !map_map. reflexivity. Qed.

End Embedding.
End PyDictFacts.

(* ================================================================== *)
(** ** Facts about the two functions *)

Section ServiceFacts.

Variable E : environment.

Lemma is_blank_iff (message : string) :
  is_blank message = true <-> PyStr.whitespace_only message = true.
Proof.
  unfold is_blank. rewrite orb_true_iff, !negb_true_iff, !PyStrFacts.truthy_false.
  rewrite PyStrFacts.strip_empty_iff. split.
  - intros [->|H]; [reflexivity | exact H].
  - intros H. now right.
Qed.

Lemma post_count_app (tr tr' : trace) :
  post_count (tr ++ tr') = post_count tr + post_count tr'.
Proof. unfold post_count. now rewrite filter_app, length_app. Qed.

Lemma py_key_eqb_VStr (a b : string) :
  py_key_eqb (VStr a) (VStr b) = String.eqb a b.
Proof. reflexivity. Qed.

Lemma mapping_get_label (l : string) :
  mapping_get VStr (VStr l) (VStr l) = inr (VStr (scores_key l)).
Proof.
  unfold mapping_get, scores_key, mapping_get_str, PyDict.get_default, mapping_lookup.
  now destruct (PyDict.get String.eqb INTENT_MAPPING l).
Qed.

Lemma mapping_get_intent (l : string) :
  mapping_get (fun c => c) (VStr l) "general" = inr (mapping_get_str l "general").
Proof. reflexivity. Qed.

Lemma combine_ranking (r : ranking) :
  combine (map (fun p => VStr (fst p)) r) (map (fun p => VNum (snd p)) r)
  = map (fun p => (VStr (fst p), VNum (snd p))) r.
Proof. induction r as [|p r IH]; simpl; [reflexivity | now rewrite IH]. Qed.

Lemma combine_fst_snd {A B : Type} (r : list (A * B)) :
  combine (map fst r) (map snd r) = r.
Proof. induction r as [|[a b] r IH]; simpl; [reflexivity | now rewrite IH]. Qed.

(** On a ranking the comprehension of the remote path cannot fail and
    fills the dict with the items of the ranking. *)
Lemma hf_all_scores_ranking (r : ranking) (acc : list (pyval * Q)) :
  hf_all_scores E (map (fun p => (VStr (fst p), VNum (snd p))) r) acc
  = inr (PyDict.fill py_key_eqb (PyDict.embed VStr (scores_items r)) acc).
Proof.
  revert acc. induction r as [|[l s] r IH]; intros acc; [reflexivity|].
  simpl map. cbn [hf_all_scores].
  rewrite mapping_get_label. simpl. apply IH.
Qed.

Lemma hf_normalize_ranked_dict (r : ranking) (l0 : string) (s0 : Q) (v : pyval) :
  PyList.first r = Some (l0, s0) ->
  ranked_dict r v ->
  hf_normalize E v = inr (ranked_result (Some "hf_api") r l0 s0).
Proof.
  intros Hfirst (items & -> & Hl & Hs).
  destruct r as [|[l s] rest]; [discriminate|].
  simpl in Hfirst. injection Hfirst as -> ->.
  unfold hf_normalize. rewrite Hl, Hs.
  cbn [map fst snd subscript0 fbind py_iter].
  rewrite mapping_get_intent. cbn [fbind].
  change (VStr l0 :: map (fun p : string * Q => VStr (fst p)) rest)
    with (map (fun p : string * Q => VStr (fst p)) ((l0, s0) :: rest)).
  change (VNum s0 :: map (fun p : string * Q => VNum (snd p)) rest)
    with (map (fun p : string * Q => VNum (snd p)) ((l0, s0) :: rest)).
  rewrite combine_ranking, hf_all_scores_ranking. cbn [fbind py_float].
  unfold ranked_result. f_equal. f_equal.
  apply (PyDictFacts.of_items_embed String.eqb py_key_eqb VStr py_key_eqb_VStr).
Qed.

Lemma hf_normalize_ranking (r : ranking) (l0 : string) (s0 : Q) (body : pyval) :
  PyList.first r = Some (l0, s0) ->
  json_ranking r body ->
  hf_normalize E body = inr (ranked_result (Some "hf_api") r l0 s0).
Proof.
  intros Hfirst [Hd | (d & rest & -> & Hd)].
  - now apply hf_normalize_ranked_dict.
  - rewrite <- (hf_normalize_ranked_dict r l0 s0 d Hfirst Hd).
    destruct Hd as (items & -> & _). reflexivity.
Qed.

Lemma embed_scores_items (r : ranking) :
  PyDict.embed VStr (scores_items r)
  = map (fun ls => (VStr (mapping_get_str (fst ls) (fst ls)), snd ls)) r.
Proof. unfold PyDict.embed, scores_items. now rewrite map_map. Qed.

Lemma local_normalize_ranking (r : ranking) (l0 : string) (s0 : Q)
    (out : pipeline_output) :
  PyList.first r = Some (l0, s0) ->
  pipeline_ranking r out ->
  local_normalize out = inr (ranked_result None r l0 s0).
Proof.
  intros Hfirst [Hl Hs].
  destruct r as [|[l s] rest]; [discriminate|].
  simpl in Hfirst. injection Hfirst as -> ->.
  unfold local_normalize. rewrite Hl, Hs. simpl PyList.first. cbn [fbind].
  rewrite combine_fst_snd, <- embed_scores_items.
  unfold ranked_result. f_equal. f_equal.
  apply (PyDictFacts.of_items_embed String.eqb py_key_eqb VStr py_key_eqb_VStr).
Qed.

(** *** The gateway of the remote path *)

Lemma status_and_json (resp : response) (tr : trace) :
  (raise_for_status resp ;; response_json resp) tr = (checked_body resp, tr).
Proof.
  unfold bind, raise_for_status, response_json, checked_body.
  destruct ((400 <=? status_code resp) && (status_code resp <? 600))%Z;
    [reflexivity|].
  unfold ret. now destruct (json_body resp).
Qed.

Section Fetch.

Variables (context_message : string) (timeout : Z) (tr : trace).
Let r := build_request E context_message timeout.

(** The first request raises: nothing else is sent. *)
Lemma hf_fetch_raises (e : exn) :
  post E (post_count tr) r = inl e ->
  hf_fetch E context_message timeout tr = (inl e, tr ++ [EvPost r]).
Proof.
  intros H. unfold hf_fetch, bind at 1, requests_post. fold r.
  now rewrite H.
Qed.

(** The first request is answered and the model is not loading. *)
Lemma hf_fetch_answered (resp : response) :
  post E (post_count tr) r = inr resp ->
  status_code resp <> 503%Z ->
  hf_fetch E context_message timeout tr = (checked_body resp, tr ++ [EvPost r]).
Proof.
  intros H Hs. unfold hf_fetch, bind at 1, requests_post. fold r.
  rewrite H. apply Z.eqb_neq in Hs.
  unfold bind at 1. rewrite Hs. unfold ret at 1.
  apply status_and_json.
Qed.

(** The model is loading: one pause of two seconds, one more request. *)
Lemma hf_fetch_loading (resp : response) :
  post E (post_count tr) r = inr resp ->
  status_code resp = 503%Z ->
  hf_fetch E context_message timeout tr =
  (match post E (S (post_count tr)) r with
   | inl e => inl e
   | inr resp' => checked_body resp'
   end,
   tr ++ [EvPost r; EvSleep 2; EvPost r]).
Proof.
  intros H Hs. unfold hf_fetch, bind at 1, requests_post at 1. fold r.
  rewrite H, Hs. simpl Z.eqb. cbv iota.
  unfold bind at 1, bind at 1, time_sleep, requests_post.
  rewrite <- !app_assoc. simpl app.
  replace (post_count (tr ++ [EvPost r; EvSleep 2]))
    with (S (post_count tr))
    by (rewrite post_count_app; cbn; lia).
  destruct (post E (S (post_count tr)) r) as [e|resp'];
    [reflexivity | apply status_and_json].
Qed.

End Fetch.

(** *** Both functions always return a result *)

Lemma classify_intent_hf_run (message : string) (history : option (list turn))
    (timeout : Z) (tr : trace) :
  is_blank message = false ->
  classify_intent_hf E message history timeout tr =
  (inr match fst (hf_try E (compose_context message history) timeout tr) with
       | inr result => result
       | inl e => hf_failure (hf_error_text E e)
       end,
   snd (hf_try E (compose_context message history) timeout tr)).
Proof.
  intros Hb. unfold classify_intent_hf, try_except. rewrite Hb.
  destruct (hf_try E (compose_context message history) timeout tr) as [[e|res] tr'];
    simpl; [|reflexivity].
  unfold hf_error_text. now destruct (class_of e).
Qed.

Lemma classify_intent_run (message : string) (history : option (list turn))
    (tr : trace) :
  is_blank message = false ->
  classify_intent E message history tr =
  (inr match fst (local_try E (compose_context message history) tr) with
       | inr result => result
       | inl e => local_failure (Some (exn_str E e))
       end,
   snd (local_try E (compose_context message history) tr)).
Proof.
  intros Hb. unfold classify_intent, try_except. rewrite Hb.
  now destruct (local_try E (compose_context message history) tr) as [[e|res] tr'].
Qed.

Lemma hf_try_fetched (context_message : string) (timeout : Z) (tr tr' : trace)
    (fetched : fallible pyval) :
  hf_fetch E context_message timeout tr = (fetched, tr') ->
  hf_try E context_message timeout tr = (fbind fetched (hf_normalize E), tr').
Proof.
  intros H. unfold hf_try, bind. rewrite H. now destruct fetched.
Qed.

Lemma local_try_run (context_message : string) (tr : trace) :
  local_try E context_message tr =
  (fbind (classifier E context_message INTENT_LABELS false) local_normalize,
   tr ++ [EvPipeline context_message INTENT_LABELS false]).
Proof.
  unfold local_try, bind, run_classifier.
  now destruct (classifier E context_message INTENT_LABELS false).
Qed.

(** A successful classification over a ranking, remote path. *)
Lemma classify_intent_hf_ranked (message : string) (history : option (list turn))
    (timeout : Z) (tr tr' : trace) (body : pyval) (r : ranking)
    (l0 : string) (s0 : Q) :
  is_blank message = false ->
  hf_fetch E (compose_context message history) timeout tr = (inr body, tr') ->
  json_ranking r body ->
  PyList.first r = Some (l0, s0) ->
  classify_intent_hf E message history timeout tr =
  (inr (ranked_result (Some "hf_api") r l0 s0), tr').
Proof.
  intros Hb Hf Hr Hfirst.
  rewrite (classify_intent_hf_run _ _ _ _ Hb), (hf_try_fetched _ _ _ _ _ Hf).
  simpl. now rewrite (hf_normalize_ranking r l0 s0 body Hfirst Hr).
Qed.

(** A successful classification over a ranking, local path. *)
Lemma classify_intent_ranked (message : string) (history : option (list turn))
    (tr : trace) (out : pipeline_output) (r : ranking) (l0 : string) (s0 : Q) :
  is_blank message = false ->
  classifier E (compose_context message history) INTENT_LABELS false = inr out ->
  pipeline_ranking r out ->
  PyList.first r = Some (l0, s0) ->
  classify_intent E message history tr =
  (inr (ranked_result None r l0 s0),
   tr ++ [EvPipeline (compose_context message history) INTENT_LABELS false]).
Proof.
  intros Hb Hc Hr Hfirst.
  rewrite (classify_intent_run _ _ _ Hb), local_try_run, Hc.
  simpl. now rewrite (local_normalize_ranking r l0 s0 out Hfirst Hr).
Qed.

End ServiceFacts.

(* ================================================================== *)
(** ** Properties of the service *)

Lemma is_blank_false_iff (message : string) :
  is_blank message = false <-> PyStr.strip message <> "".
Proof.
  rewrite <- not_true_iff_false, is_blank_iff, <- PyStrFacts.strip_empty_iff.
  reflexivity.
Qed.

(** Every label of the registry has its entry in the Intent Mapping. *)
Lemma mapping_total (l : string) :
  In l INTENT_LABELS -> mapping_lookup l = Some (scores_key l).
Proof.
  intros H. simpl in H.
  repeat (destruct H as [<-|H]; [reflexivity|]). contradiction.
Qed.

Lemma first_of_cover (r : ranking) :
  covers_labels r -> exists l0 s0, PyList.first r = Some (l0, s0).
Proof.
  intros H. destruct r as [|[l0 s0] rest].
  - destruct (H "help"). simpl. tauto.
  - now exists l0, s0.
Qed.

(** C1. For a message that is not blank and a classifier answer that ranks
    the whole label set, both paths return a result whose intent is the
    Intent Mapping's image of the raw label at index 0 (["general"] being
    the default of the lookup) and whose confidence is the score at
    index 0. *)
Theorem top_label_decides_intent_and_confidence
    (E : environment) (message : string) (history : option (list turn))
    (timeout : Z) (tr : trace) (r : ranking) :
  is_blank message = false ->
  covers_labels r ->
  exists l0 s0,
    PyList.first r = Some (l0, s0) /\
    (forall c, mapping_lookup l0 = Some c -> mapping_get_str l0 "general" = c) /\
    (forall tr',
        hf_answers E message history timeout tr r tr' ->
        exists result,
          classify_intent_hf E message history timeout tr = (inr result, tr') /\
          intent result = mapping_get_str l0 "general" /\
          confidence result = s0 /\
          error result = None) /\
    (pipeline_answers E message history r ->
     exists result,
       classify_intent E message history tr
       = (inr result, tr ++ [pipeline_call message history]) /\
       intent result = mapping_get_str l0 "general" /\
       confidence result = s0 /\
       error result = None).
Proof.
  intros Hb Hcov.
  destruct (first_of_cover r Hcov) as (l0 & s0 & Hfirst).
  exists l0, s0. split; [exact Hfirst|]. split; [|split].
  - intros c Hc. unfold mapping_get_str, PyDict.get_default.
    unfold mapping_lookup in Hc. now rewrite Hc.
  - intros tr' (body & Hf & Hr).
    exists (ranked_result (Some "hf_api") r l0 s0).
    split; [|now repeat split].
    now apply classify_intent_hf_ranked with (body := body).
  - intros (out & Hc & Hr).
    exists (ranked_result None r l0 s0).
    split; [|now repeat split].
    now apply classify_intent_ranked with (out := out).
Qed.

(** A blank message short-circuits the remote path: the degraded result
    carries ["Empty message"] and nothing is sent. *)
Lemma hf_blank_message (E : environment) (message : string)
    (history : option (list turn)) (timeout : Z) (tr : trace) :
  PyStr.whitespace_only message = true ->
  classify_intent_hf E message history timeout tr
  = (inr {| intent := "general"; confidence := 0; all_scores := [];
            raw_label := None; source := Some "hf_api";
            error := Some "Empty message" |}, tr).
Proof.
  intros H. apply is_blank_iff in H.
  unfold classify_intent_hf. now rewrite H.
Qed.

(** A blank message short-circuits the local path as well, but its result
    has no ["error"] entry. *)
Lemma local_blank_message (E : environment) (message : string)
    (history : option (list turn)) (tr : trace) :
  PyStr.whitespace_only message = true ->
  classify_intent E message history tr
  = (inr {| intent := "general"; confidence := 0; all_scores := [];
            raw_label := None; source := None; error := None |}, tr).
Proof.
  intros H. apply is_blank_iff in H.
  unfold classify_intent. now rewrite H.
Qed.

(** C2. On the empty message and on a message of three spaces the local
    path returns intent ["general"], confidence 0 and no scores without
    calling the pipeline, and its result carries no ["error"] entry, where
    the remote path writes ["Empty message"]. *)
Theorem local_empty_message_lacks_error
    (E : environment) (history : option (list turn)) (tr : trace) :
  classify_intent E "" history tr
  = (inr {| intent := "general"; confidence := 0; all_scores := [];
            raw_label := None; source := None; error := None |}, tr) /\
  classify_intent E "   " history tr
  = (inr {| intent := "general"; confidence := 0; all_scores := [];
            raw_label := None; source := None; error := None |}, tr) /\
  (forall timeout,
      fst (classify_intent_hf E "" history timeout tr)
      = inr (hf_failure "Empty message")).
Proof. repeat split. Qed.

(** The ways the gateway of the remote path fails on a first answer that
    is not a loading signal, and the failure of the local pipeline. *)
Lemma failure_modes (E : environment) (context_message : string)
    (timeout : Z) (tr : trace) :
  let r := build_request E context_message timeout in
  (forall e, post E (post_count tr) r = inl e ->
             hf_try E context_message timeout tr = (inl e, tr ++ [EvPost r])) /\
  (forall resp, post E (post_count tr) r = inr resp ->
                status_code resp <> 503%Z ->
                (400 <= status_code resp < 600)%Z ->
                hf_try E context_message timeout tr
                = (inl (HTTPError (status_code resp)), tr ++ [EvPost r])) /\
  (forall resp, post E (post_count tr) r = inr resp ->
                (status_code resp < 400 \/ 600 <= status_code resp)%Z ->
                json_body resp = None ->
                hf_try E context_message timeout tr
                = (inl JSONDecodeError, tr ++ [EvPost r])) /\
  (forall resp items, post E (post_count tr) r = inr resp ->
                (status_code resp < 400 \/ 600 <= status_code resp)%Z ->
                json_body resp = Some (VDict items) ->
                PyDict.get String.eqb items "labels" = None ->
                hf_try E context_message timeout tr
                = (inl (UnexpectedFormat (VDict items)), tr ++ [EvPost r])) /\
  (forall e, classifier E context_message INTENT_LABELS false = inl e ->
             local_try E context_message tr
             = (inl e, tr ++ [EvPipeline context_message INTENT_LABELS false])).
Proof.
  intros r. repeat split.
  - intros e H. now rewrite (hf_try_fetched E _ _ _ _ _ (hf_fetch_raises E _ _ _ e H)).
  - intros resp H H503 Hs.
    rewrite (hf_try_fetched E _ _ _ _ _ (hf_fetch_answered E _ _ _ resp H H503)).
    unfold checked_body.
    replace ((400 <=? status_code resp) && (status_code resp <? 600))%Z with true;
      [reflexivity|].
    symmetry. apply andb_true_iff. split; [apply Z.leb_le | apply Z.ltb_lt]; lia.
  - intros resp H Hs Hj.
    assert (H503 : status_code resp <> 503%Z) by lia.
    rewrite (hf_try_fetched E _ _ _ _ _ (hf_fetch_answered E _ _ _ resp H H503)).
    unfold checked_body. rewrite Hj.
    replace ((400 <=? status_code resp) && (status_code resp <? 600))%Z with false;
      [reflexivity|].
    symmetry. apply andb_false_iff.
    destruct Hs; [left; apply Z.leb_gt | right; apply Z.ltb_ge]; lia.
  - intros resp items H Hs Hj Hl.
    assert (H503 : status_code resp <> 503%Z) by lia.
    rewrite (hf_try_fetched E _ _ _ _ _ (hf_fetch_answered E _ _ _ resp H H503)).
    unfold checked_body. rewrite Hj.
    replace ((400 <=? status_code resp) && (status_code resp <? 600))%Z with false.
    + simpl. unfold hf_normalize. now rewrite Hl.
    + symmetry. apply andb_false_iff.
      destruct Hs; [left; apply Z.leb_gt | right; apply Z.ltb_ge]; lia.
  - intros e H. now rewrite local_try_run, H.
Qed.

Lemma checked_body_ok (resp : response) (body : pyval) :
  (status_code resp < 400 \/ 600 <= status_code resp)%Z ->
  json_body resp = Some body ->
  checked_body resp = inr body.
Proof.
  intros Hs Hj. unfold checked_body. rewrite Hj.
  replace ((400 <=? status_code resp) && (status_code resp <? 600))%Z with false;
    [reflexivity|].
  symmetry. apply andb_false_iff.
  destruct Hs; [left; apply Z.leb_gt | right; apply Z.ltb_ge]; lia.
Qed.

Lemma checked_body_error (resp : response) :
  (400 <= status_code resp < 600)%Z ->
  checked_body resp = inl (HTTPError (status_code resp)).
Proof.
  intros Hs. unfold checked_body.
  replace ((400 <=? status_code resp) && (status_code resp <? 600))%Z with true;
    [reflexivity|].
  symmetry. apply andb_true_iff. split; [apply Z.leb_le | apply Z.ltb_lt]; lia.
Qed.

(** How the gateway comes back with a ranking: on the first answer ... *)
Lemma first_answer_ranked (E : environment) (message : string)
    (history : option (list turn)) (timeout : Z) (tr : trace)
    (resp : response) (body : pyval) (r : ranking) :
  post E (post_count tr) (hf_request E message history timeout) = inr resp ->
  (status_code resp < 400 \/ 600 <= status_code resp)%Z ->
  json_body resp = Some body ->
  json_ranking r body ->
  hf_answers E message history timeout tr r
    (tr ++ [EvPost (hf_request E message history timeout)]).
Proof.
  intros Hp Hs Hj Hr. exists body. split; [|exact Hr].
  assert (H503 : status_code resp <> 503%Z) by lia.
  unfold hf_request in *.
  rewrite (hf_fetch_answered E _ _ _ resp Hp H503).
  now rewrite (checked_body_ok resp body Hs Hj).
Qed.

(** ... or, after a loading signal, on the second. *)
Lemma second_answer_ranked (E : environment) (message : string)
    (history : option (list turn)) (timeout : Z) (tr : trace)
    (resp resp' : response) (body : pyval) (r : ranking) :
  post E (post_count tr) (hf_request E message history timeout) = inr resp ->
  status_code resp = 503%Z ->
  post E (S (post_count tr)) (hf_request E message history timeout) = inr resp' ->
  (status_code resp' < 400 \/ 600 <= status_code resp')%Z ->
  json_body resp' = Some body ->
  json_ranking r body ->
  hf_answers E message history timeout tr r
    (tr ++ [EvPost (hf_request E message history timeout);
            EvSleep 2;
            EvPost (hf_request E message history timeout)]).
Proof.
  intros Hp H503 Hp' Hs Hj Hr. exists body. split; [|exact Hr].
  unfold hf_request in *.
  rewrite (hf_fetch_loading E _ _ _ resp Hp H503), Hp'.
  now rewrite (checked_body_ok resp' body Hs Hj).
Qed.

(** C4. When the first answer of the endpoint has status 503, the remote
    path sleeps two seconds and sends the same request once more, and
    nothing after that: two requests in all.  A well-formed answer to the
    second request gives the ordinary successful result; an error status
    or an exception on the second request gives the degraded result with
    that failure in [error]. *)
Theorem loading_is_retried_once
    (E : environment) (message : string) (history : option (list turn))
    (timeout : Z) (tr : trace) (resp : response) :
  is_blank message = false ->
  post E (post_count tr) (hf_request E message history timeout) = inr resp ->
  status_code resp = 503%Z ->
  exists result tr',
    classify_intent_hf E message history timeout tr = (inr result, tr') /\
    tr' = tr ++ [EvPost (hf_request E message history timeout);
                 EvSleep 2;
                 EvPost (hf_request E message history timeout)] /\
    post_count tr' = post_count tr + 2 /\
    (forall resp' body r l0 s0,
        post E (S (post_count tr)) (hf_request E message history timeout) = inr resp' ->
        (status_code resp' < 400 \/ 600 <= status_code resp')%Z ->
        json_body resp' = Some body ->
        json_ranking r body ->
        PyList.first r = Some (l0, s0) ->
        result = ranked_result (Some "hf_api") r l0 s0) /\
    (forall resp',
        post E (S (post_count tr)) (hf_request E message history timeout) = inr resp' ->
        (400 <= status_code resp' < 600)%Z ->
        result = hf_failure (exn_str E (HTTPError (status_code resp')))) /\
    (forall e,
        post E (S (post_count tr)) (hf_request E message history timeout) = inl e ->
        result = hf_failure (hf_error_text E e)).
Proof.
  intros Hb H1 H503. unfold hf_request in *.
  set (r := build_request E (compose_context message history) timeout) in *.
  pose proof (hf_fetch_loading E _ _ _ resp H1 H503) as Hf. fold r in Hf.
  rewrite (classify_intent_hf_run E _ _ _ _ Hb), (hf_try_fetched E _ _ _ _ _ Hf).
  cbn [fst snd]. eexists _, _. split; [reflexivity|]. split; [reflexivity|].
  split; [rewrite post_count_app; cbn; lia|].
  split; [|split].
  - intros resp' body rk l0 s0 H2 Hs Hj Hr Hfirst.
    rewrite H2, (checked_body_ok resp' body Hs Hj). simpl.
    now rewrite (hf_normalize_ranking E rk l0 s0 body Hfirst Hr).
  - intros resp' H2 Hs. now rewrite H2, (checked_body_error resp' Hs).
  - intros e H2. now rewrite H2.
Qed.

(** C5. When the request of the remote path times out, the function sends
    nothing more (one request in all) and returns intent ["general"],
    confidence 0, no scores and the error ["Request timeout"]. *)
Theorem timeout_is_not_retried
    (E : environment) (message : string) (history : option (list turn))
    (timeout : Z) (tr : trace) (detail : string) :
  is_blank message = false ->
  post E (post_count tr) (hf_request E message history timeout) = inl (Timeout detail) ->
  exists tr',
    classify_intent_hf E message history timeout tr
    = (inr {| intent := "general"; confidence := 0; all_scores := [];
              raw_label := None; source := Some "hf_api";
              error := Some "Request timeout" |}, tr') /\
    tr' = tr ++ [EvPost (hf_request E message history timeout)] /\
    post_count tr' = post_count tr + 1.
Proof.
  intros Hb H. unfold hf_request in *.
  pose proof (hf_fetch_raises E _ _ _ _ H) as Hf.
  rewrite (classify_intent_hf_run E _ _ _ _ Hb), (hf_try_fetched E _ _ _ _ _ Hf).
  cbn [fst snd fbind]. eexists. split; [reflexivity|]. split; [reflexivity|].
  rewrite post_count_app. cbn. lia.
Qed.

(** *** Context composition *)

Lemma text_field_get (h : turn) :
  text_field h = PyDict.get_default String.eqb h "text" "".
Proof.
  unfold text_field, PyDict.get_default.
  induction h as [|[k v] h IH]; simpl; [reflexivity|].
  destruct (String.eqb k "text"); [reflexivity | exact IH].
Qed.

(** Only the last two turns of a history matter. *)
Lemma compose_context_last_two (message : string) (history : list turn) :
  history <> [] ->
  compose_context message (Some history) =
  let context := PyStr.join " " (map text_field (PyList.last_n 2 history)) in
  if PyStr.truthy context then (context ++ " " ++ message)%string else message.
Proof.
  intros Hne. destruct history as [|h0 rest]; [contradiction|].
  unfold compose_context.
  set (history := h0 :: rest).
  replace (PyList.last_n 2 (if (3 <? length history)%nat
                            then PyList.last_n 3 history else history))
    with (PyList.last_n 2 history)
    by (destruct (3 <? length history)%nat;
        [now rewrite PyListFacts.last_n_last_n by lia | reflexivity]).
  rewrite (map_ext _ _ text_field_get). reflexivity.
Qed.

Lemma compose_context_refines_spec (message : string) (history : option (list turn)) :
  compose_context message history = composed_text_spec message history.
Proof.
  destruct history as [[|h0 rest]|]; try reflexivity.
  rewrite compose_context_last_two by discriminate.
  unfold composed_text_spec, last_turns.
  rewrite <- !PyListFacts.last_n_rev.
  rewrite PyListFacts.last_n_last_n by lia.
  cbv zeta.
  destruct (PyStr.join " " (map text_field (PyList.last_n 2 (h0 :: rest))));
    reflexivity.
Qed.

(** What the remote gateway sends: the request once, or twice around a
    pause. *)
Lemma hf_fetch_trace (E : environment) (context_message : string)
    (timeout : Z) (tr : trace) :
  exists fetched sent,
    hf_fetch E context_message timeout tr = (fetched, tr ++ sent) /\
    (sent = [EvPost (build_request E context_message timeout)] \/
     sent = [EvPost (build_request E context_message timeout); EvSleep 2;
             EvPost (build_request E context_message timeout)]).
Proof.
  destruct (post E (post_count tr) (build_request E context_message timeout))
    as [e|resp] eqn:Hp.
  - eexists _, _. split; [apply (hf_fetch_raises E _ _ _ e Hp) | now left].
  - destruct (Z.eq_dec (status_code resp) 503) as [H503|H503].
    + eexists _, _. split; [apply (hf_fetch_loading E _ _ _ resp Hp H503) | now right].
    + eexists _, _. split; [apply (hf_fetch_answered E _ _ _ resp Hp H503) | now left].
Qed.

(** The remote path sends the composed text, and no other text. *)
Lemma hf_sends_composed_text (E : environment) (message : string)
    (history : option (list turn)) (timeout : Z) (tr : trace) :
  is_blank message = false ->
  exists result sent,
    classify_intent_hf E message history timeout tr = (result, tr ++ sent) /\
    sent_texts sent <> [] /\
    Forall (eq (compose_context message history)) (sent_texts sent).
Proof.
  intros Hb.
  destruct (hf_fetch_trace E (compose_context message history) timeout tr)
    as (fetched & sent & Hf & Hsent).
  rewrite (classify_intent_hf_run E _ _ _ _ Hb), (hf_try_fetched E _ _ _ _ _ Hf).
  cbn [fst snd]. eexists _, sent. split; [reflexivity|].
  destruct Hsent as [-> | ->]; simpl; split; try discriminate;
    repeat constructor.
Qed.

(** The local path hands the composed text to the pipeline, once. *)
Lemma local_sends_composed_text (E : environment) (message : string)
    (history : option (list turn)) (tr : trace) :
  is_blank message = false ->
  exists result,
    classify_intent E message history tr
    = (result, tr ++ [pipeline_call message history]).
Proof.
  intros Hb. rewrite (classify_intent_run E _ _ _ Hb), local_try_run.
  cbn [fst snd]. now eexists.
Qed.

(** C6. The text handed to the classifier is the one section 4.1 of the
    specification describes: the message alone without history; otherwise
    the texts of the last two of the last three turns joined by a space
    and, when that is not empty, put before the message with a space.
    For the turns A, B, C, D and the message E it is ["C D E"]. *)
Theorem composed_text_meets_spec :
  (forall message history,
      compose_context message history = composed_text_spec message history) /\
  (forall E message history timeout tr,
      is_blank message = false ->
      exists result sent,
        classify_intent_hf E message history timeout tr = (result, tr ++ sent) /\
        sent_texts sent <> [] /\
        Forall (eq (composed_text_spec message history)) (sent_texts sent)) /\
  (forall E message history tr,
      is_blank message = false ->
      exists result,
        classify_intent E message history tr
        = (result,
           tr ++ [EvPipeline (composed_text_spec message history) INTENT_LABELS false])) /\
  compose_context "E" (Some [turn_of "A"; turn_of "B"; turn_of "C"; turn_of "D"])
  = "C D E".
Proof.
  split; [exact compose_context_refines_spec|]. split; [|split].
  - intros E message history timeout tr Hb.
    rewrite <- compose_context_refines_spec.
    now apply hf_sends_composed_text.
  - intros E message history tr Hb.
    rewrite <- compose_context_refines_spec.
    now apply local_sends_composed_text.
  - reflexivity.
Qed.

Lemma text_field_empty (h : turn) :
  PyDict.get String.eqb h "text" = None \/ PyDict.get String.eqb h "text" = Some "" ->
  text_field h = "".
Proof.
  rewrite text_field_get. unfold PyDict.get_default. now intros [-> | ->].
Qed.

(** C10. When the last two turns of the history both lack a text or have
    the empty text, the joined context is one space, which is truthy, and
    the text sent is the message behind two spaces; when the history is a
    single turn of that kind the joined context is empty and the message
    is sent as it is. *)
Theorem blank_context_prefixes_two_spaces
    (message : string) (front : list turn) (h1 h2 : turn) :
  (PyDict.get String.eqb h1 "text" = None \/ PyDict.get String.eqb h1 "text" = Some "") ->
  (PyDict.get String.eqb h2 "text" = None \/ PyDict.get String.eqb h2 "text" = Some "") ->
  PyStr.join " " (map text_field [h1; h2]) = " " /\
  compose_context message (Some (front ++ [h1; h2])) = ("  " ++ message)%string /\
  PyStr.join " " (map text_field [h2]) = "" /\
  compose_context message (Some [h2]) = message /\
  (forall E timeout tr,
      is_blank message = false ->
      exists result sent,
        classify_intent_hf E message (Some (front ++ [h1; h2])) timeout tr
        = (result, tr ++ sent) /\
        sent_texts sent <> [] /\
        Forall (eq ("  " ++ message)%string) (sent_texts sent)) /\
  (forall E tr,
      is_blank message = false ->
      exists result,
        classify_intent E message (Some (front ++ [h1; h2])) tr
        = (result, tr ++ [EvPipeline ("  " ++ message)%string INTENT_LABELS false])).
Proof.
  intros H1 H2.
  apply text_field_empty in H1, H2.
  assert (Hpair : PyStr.join " " (map text_field [h1; h2]) = " ")
    by (simpl map; now rewrite H1, H2).
  assert (Hctx : compose_context message (Some (front ++ [h1; h2]))
                 = ("  " ++ message)%string).
  { rewrite compose_context_last_two by (now destruct front).
    pose proof (PyListFacts.last_n_app front [h1; h2]) as Hlast.
    simpl length in Hlast. rewrite Hlast, Hpair. reflexivity. }
  assert (Hone : PyStr.join " " (map text_field [h2]) = "")
    by (simpl map; now rewrite H2).
  repeat split.
  - exact Hpair.
  - exact Hctx.
  - exact Hone.
  - rewrite compose_context_last_two by discriminate.
    change (PyList.last_n 2 [h2]) with [h2]. now rewrite Hone.
  - intros E timeout tr Hb. rewrite <- Hctx. now apply hf_sends_composed_text.
  - intros E tr Hb. rewrite <- Hctx. now apply local_sends_composed_text.
Qed.

(** *** The score distribution *)

Section ScoreDistribution.

Variable r : ranking.

Let d : list (pyval * Q) :=
  PyDict.embed VStr (PyDict.of_items String.eqb (scores_items r)).

Lemma scores_keys :
  PyDict.keys d = map VStr (PyDict.keys (PyDict.of_items String.eqb (scores_items r))).
Proof. apply PyDictFacts.keys_embed. Qed.

Lemma scores_key_in (k : pyval) :
  In k (PyDict.keys d) <-> exists l, In l (map fst r) /\ k = VStr (scores_key l).
Proof.
  rewrite scores_keys, in_map_iff. split.
  - intros (c & <- & Hc).
    apply (proj1 (PyDictFacts.keys_of_items String.eqb String.eqb_eq _ _)) in Hc.
    unfold scores_items in Hc. rewrite map_map in Hc. simpl in Hc.
    apply in_map_iff in Hc as (p & <- & Hp).
    exists (fst p). split; [now apply in_map | reflexivity].
  - intros (l & Hl & ->). exists (scores_key l). split; [reflexivity|].
    apply (proj2 (PyDictFacts.keys_of_items String.eqb String.eqb_eq _ _)).
    unfold scores_items. rewrite map_map. simpl.
    apply in_map_iff in Hl as (p & <- & Hp).
    apply in_map_iff. now exists p.
Qed.

Lemma scores_NoDup : NoDup (PyDict.keys d).
Proof.
  rewrite scores_keys.
  pose proof (PyDictFacts.NoDup_keys_of_items String.eqb String.eqb_eq (scores_items r)) as H.
  induction H as [|c ks Hnot Hnd IH]; simpl; constructor; [|exact IH].
  intros Hin. apply in_map_iff in Hin as (c' & Heq & Hc').
  injection Heq as ->. exact (Hnot Hc').
Qed.

Lemma scores_get (c : string) :
  PyDict.get py_key_eqb d (VStr c)
  = PyDict.last_value String.eqb (scores_items r) c.
Proof.
  unfold d.
  rewrite (PyDictFacts.get_embed String.eqb py_key_eqb VStr py_key_eqb_VStr).
  apply (PyDictFacts.get_of_items String.eqb String.eqb_eq).
Qed.

(** On a ranking of registered labels, the last write under [c] is the
    last entry whose label the Intent Mapping sends to [c]. *)
Lemma last_value_mapped (c : string) :
  (forall l, In l (map fst r) -> In l INTENT_LABELS) ->
  PyDict.last_value String.eqb (scores_items r) c = last_score_mapped_to c r.
Proof.
  clear d. induction r as [|[l s] rest IH]; intros Hreg; [reflexivity|].
  simpl. rewrite IH by (intros l' Hl'; apply Hreg; now right).
  destruct (last_score_mapped_to c rest); [reflexivity|].
  now rewrite (mapping_total l (Hreg l (or_introl eq_refl))).
Qed.

Lemma scores_canonical : over_labels r -> canonical_scores r d.
Proof.
  intros Hover. repeat split.
  - intros Hk. apply scores_key_in in Hk as (l & Hl & ->).
    apply Hover in Hl. exists l, (scores_key l).
    split; [exact Hl|]. split; [now apply mapping_total | reflexivity].
  - intros (l & c & Hl & Hc & ->). apply scores_key_in.
    exists l. split; [now apply Hover|].
    rewrite (mapping_total l Hl) in Hc. now injection Hc as ->.
  - exact scores_NoDup.
  - replace (length d) with (length (PyDict.keys d))
      by (unfold PyDict.keys; apply length_map).
    rewrite <- (length_map (fun l => VStr (scores_key l)) INTENT_LABELS).
    apply NoDup_incl_length; [exact scores_NoDup|].
    intros k Hk. apply scores_key_in in Hk as (l & Hl & ->).
    apply in_map_iff. exists l. split; [reflexivity | now apply Hover].
  - intros c. rewrite scores_get. apply last_value_mapped.
    intros l Hl. now apply Hover.
Qed.

End ScoreDistribution.

Lemma over_labels_covers (r : ranking) : over_labels r -> covers_labels r.
Proof. intros H l Hl. now apply H. Qed.

(** C7 (amended). After a successful classification of a ranking that
    holds every label of the label set and no other label,
    the keys of [all_scores] are exactly the canonical intents the Intent
    Mapping reaches from the label set, each once, so no more of them than
    there are raw labels; and under each canonical intent stands the score
    of the last entry of the ranking mapped to it. *)
Theorem all_scores_keys_are_canonical_intents
    (E : environment) (message : string) (history : option (list turn))
    (timeout : Z) (tr : trace) (r : ranking) :
  is_blank message = false ->
  over_labels r ->
  (forall tr',
      hf_answers E message history timeout tr r tr' ->
      exists result,
        classify_intent_hf E message history timeout tr = (inr result, tr') /\
        canonical_scores r (all_scores result)) /\
  (pipeline_answers E message history r ->
   exists result,
     classify_intent E message history tr
     = (inr result, tr ++ [pipeline_call message history]) /\
     canonical_scores r (all_scores result)).
Proof.
  intros Hb Hover.
  destruct (first_of_cover r (over_labels_covers r Hover)) as (l0 & s0 & Hfirst).
  split.
  - intros tr' (body & Hf & Hr).
    exists (ranked_result (Some "hf_api") r l0 s0). split.
    + now apply classify_intent_hf_ranked with (body := body).
    + now apply scores_canonical.
  - intros (out & Hc & Hr).
    exists (ranked_result None r l0 s0). split.
    + now apply classify_intent_ranked with (out := out).
    + now apply scores_canonical.
Qed.

Lemma ranked_result_raw_key (src : option string) (r : ranking) (l0 : string) (s0 : Q) :
  PyList.first r = Some (l0, s0) ->
  raw_key_fallback r (ranked_result src r l0 s0).
Proof.
  intros Hfirst. split.
  - intros l0' s0' Hfirst' Hnone.
    rewrite Hfirst in Hfirst'. injection Hfirst' as <- <-.
    simpl. unfold mapping_get_str, PyDict.get_default.
    unfold mapping_lookup in Hnone. now rewrite Hnone.
  - intros l Hl Hnone.
    assert (Hkey : scores_key l = l).
    { unfold scores_key, mapping_get_str, PyDict.get_default.
      unfold mapping_lookup in Hnone. now rewrite Hnone. }
    simpl all_scores. split.
    + apply scores_key_in. exists l. split; [exact Hl | now rewrite Hkey].
    + rewrite scores_get.
      destruct (PyDictFacts.last_value_some String.eqb String.eqb_eq (scores_items r) l)
        as [s Hs]; [|now exists s].
      unfold scores_items. rewrite map_map. simpl.
      apply in_map_iff in Hl as (p & <- & Hp).
      apply in_map_iff. exists p. split; [exact Hkey | exact Hp].
Qed.

(** C8 (amended). A raw label the Intent Mapping does not know gives the
    intent ["general"] when it is the top label, and is filed in
    [all_scores] under the raw label itself, with the score written last
    under that key. *)
Theorem unmapped_label_keeps_raw_key
    (E : environment) (message : string) (history : option (list turn))
    (timeout : Z) (tr : trace) (r : ranking) (l0 : string) (s0 : Q) :
  is_blank message = false ->
  PyList.first r = Some (l0, s0) ->
  (forall tr',
      hf_answers E message history timeout tr r tr' ->
      exists result,
        classify_intent_hf E message history timeout tr = (inr result, tr') /\
        raw_key_fallback r result) /\
  (pipeline_answers E message history r ->
   exists result,
     classify_intent E message history tr
     = (inr result, tr ++ [pipeline_call message history]) /\
     raw_key_fallback r result).
Proof.
  intros Hb Hfirst. split.
  - intros tr' (body & Hf & Hr).
    exists (ranked_result (Some "hf_api") r l0 s0). split.
    + now apply classify_intent_hf_ranked with (body := body).
    + now apply ranked_result_raw_key.
  - intros (out & Hc & Hr).
    exists (ranked_result None r l0 s0). split.
    + now apply classify_intent_ranked with (out := out).
    + now apply ranked_result_raw_key.
Qed.

Lemma ranked_result_last_score (src : option string) (l0 : string) (s0 : Q)
    (rest : ranking) :
  (exists l s, In (l, s) rest /\ scores_key l = mapping_get_str l0 "general") ->
  takes_last_score l0 s0 rest (ranked_result src ((l0, s0) :: rest) l0 s0).
Proof.
  intros (l & s & Hin & Hkey).
  split; [reflexivity|]. split; [reflexivity|].
  unfold ranked_result. cbn [intent all_scores].
  set (c := mapping_get_str l0 "general") in *.
  destruct (PyDictFacts.last_value_some String.eqb String.eqb_eq (scores_items rest) c)
    as [s' Hs'].
  { unfold scores_items. rewrite map_map. simpl.
    apply in_map_iff. now exists (l, s). }
  pose proof (PyDictFacts.last_value_in String.eqb String.eqb_eq _ _ _ Hs') as Hin'.
  apply in_map_iff in Hin' as ([l' s''] & Heq & Hin'). simpl in Heq.
  injection Heq as Hk ->.
  exists l', s'. split; [exact Hin'|]. split; [exact Hk|]. split; [exact Hs'|].
  rewrite scores_get. cbn [scores_items map PyDict.last_value fst snd].
  fold (scores_items rest). now rewrite Hs'.
Qed.

(** C9. When a lower-ranked label is filed under the intent selected from
    the top label, the entry of [all_scores] under that intent is the
    score of the last such label of the ranking, not the top score, while
    the confidence is the top score; so the entry can be strictly below
    the confidence, as for check_balance ranked before check_portfolio. *)
Theorem shared_intent_takes_last_score
    (E : environment) (message : string) (history : option (list turn))
    (timeout : Z) (tr : trace) (l0 : string) (s0 : Q) (rest : ranking) :
  is_blank message = false ->
  (exists l s, In (l, s) rest /\ scores_key l = mapping_get_str l0 "general") ->
  (forall tr',
      hf_answers E message history timeout tr ((l0, s0) :: rest) tr' ->
      exists result,
        classify_intent_hf E message history timeout tr = (inr result, tr') /\
        takes_last_score l0 s0 rest result) /\
  (pipeline_answers E message history ((l0, s0) :: rest) ->
   exists result,
     classify_intent E message history tr
     = (inr result, tr ++ [pipeline_call message history]) /\
     takes_last_score l0 s0 rest result) /\
  (exists result tr' s,
      classify_intent_hf (mock_env (always_ok balance_ranking) pipeline_down)
        "show my balance" None 5 [] = (inr result, tr') /\
      intent result = "dashboard" /\
      PyDict.get py_key_eqb (all_scores result) (VStr (intent result)) = Some s /\
      (s < confidence result)%Q).
Proof.
  intros Hb Hshared. split; [|split].
  - intros tr' (body & Hf & Hr).
    exists (ranked_result (Some "hf_api") ((l0, s0) :: rest) l0 s0). split.
    + now apply classify_intent_hf_ranked with (body := body).
    + now apply ranked_result_last_score.
  - intros (out & Hc & Hr).
    exists (ranked_result None ((l0, s0) :: rest) l0 s0). split.
    + now apply classify_intent_ranked with (out := out).
    + now apply ranked_result_last_score.
  - eexists _, _, _. split; [vm_compute; reflexivity|].
    split; [reflexivity|]. split; [vm_compute; reflexivity|].
    vm_compute. reflexivity.
Qed.

(* ================================================================== *)
(** ** The properties at work on the test doubles *)

Lemma existsb_eqb_In (l : string) (ls : list string) :
  existsb (String.eqb l) ls = true <-> In l ls.
Proof.
  rewrite existsb_exists. split.
  - intros (x & Hx & Heq). apply String.eqb_eq in Heq. now subst.
  - intros H. exists l. split; [exact H | apply String.eqb_refl].
Qed.

Lemma covers_labels_check (r : ranking) :
  covers_labelsb r = true -> covers_labels r.
Proof.
  unfold covers_labelsb. rewrite forallb_forall.
  intros H l Hl. now apply existsb_eqb_In, H.
Qed.

Lemma over_labels_check (r : ranking) :
  over_labelsb r = true -> over_labels r.
Proof.
  unfold over_labelsb. rewrite andb_true_iff, forallb_forall.
  intros [Hc Ho] l. split.
  - intros Hl. now apply existsb_eqb_In, Ho.
  - now apply covers_labels_check.
Qed.

Lemma balance_env_answers :
  hf_answers balance_env "show my balance" None 5 [] balance_ranking
    [EvPost (hf_request balance_env "show my balance" None 5)].
Proof.
  exists (ranked_body balance_ranking). split; [reflexivity|].
  left. eexists. repeat split.
Defined.

Lemma balance_env_pipeline_answers :
  pipeline_answers balance_env "show my balance" None balance_ranking.
Proof. exists (ranked_output balance_ranking). repeat split. Defined.

Lemma foreign_env_answers :
  hf_answers foreign_env "hello there" None 5 [] foreign_ranking
    [EvPost (hf_request foreign_env "hello there" None 5)].
Proof.
  exists (ranked_body foreign_ranking). split; [reflexivity|].
  left. eexists. repeat split.
Defined.

Lemma top_label_witness :
  is_blank "show my balance" = false /\
  covers_labels balance_ranking /\
  (exists result,
      classify_intent_hf balance_env "show my balance" None 5 []
      = (inr result, [EvPost (hf_request balance_env "show my balance" None 5)]) /\
      intent result = "dashboard" /\
      confidence result = (1 # 2)%Q) /\
  (exists result,
      classify_intent balance_env "show my balance" None []
      = (inr result, [pipeline_call "show my balance" None]) /\
      intent result = "dashboard" /\
      confidence result = (1 # 2)%Q).
Proof.
  assert (Hb : is_blank "show my balance" = false) by reflexivity.
  assert (Hc : covers_labels balance_ranking)
    by (apply covers_labels_check; reflexivity).
  split; [exact Hb|]. split; [exact Hc|].
  destruct (top_label_decides_intent_and_confidence
              balance_env "show my balance" None 5 [] balance_ranking Hb Hc)
    as (l0 & s0 & Hfirst & _ & Hhf & Hlocal).
  injection Hfirst as <- <-.
  destruct (Hhf _ balance_env_answers) as (result & Hrun & Hi & Hs & _).
  destruct (Hlocal balance_env_pipeline_answers) as (result' & Hrun' & Hi' & Hs' & _).
  split.
  - exists result. split; [exact Hrun|]. split; [exact Hi | exact Hs].
  - exists result'. split; [exact Hrun'|]. split; [exact Hi' | exact Hs'].
Defined.

Lemma loading_witness :
  is_blank "show my balance" = false /\
  post loading_env (post_count [])
    (hf_request loading_env "show my balance" None 5) = inr loading_response /\
  status_code loading_response = 503%Z /\
  exists result,
    classify_intent_hf loading_env "show my balance" None 5 []
    = (inr result,
       [EvPost (hf_request loading_env "show my balance" None 5);
        EvSleep 2;
        EvPost (hf_request loading_env "show my balance" None 5)]) /\
    result = ranked_result (Some "hf_api") balance_ranking "check_balance" (1 # 2)%Q.
Proof.
  split; [reflexivity|]. split; [reflexivity|]. split; [reflexivity|].
  destruct (loading_is_retried_once loading_env "show my balance" None 5 []
              loading_response eq_refl eq_refl eq_refl)
    as (result & tr' & Hrun & -> & _ & Hok & _).
  exists result. split; [exact Hrun|].
  apply (Hok (ok_response balance_ranking) (ranked_body balance_ranking)
             balance_ranking "check_balance" (1 # 2)%Q).
  - reflexivity.
  - left. reflexivity.
  - reflexivity.
  - left. eexists. repeat split.
  - reflexivity.
Defined.

Lemma timeout_witness :
  is_blank "show my balance" = false /\
  post timeout_env (post_count [])
    (hf_request timeout_env "show my balance" None 5)
  = inl (Timeout "read timed out") /\
  exists tr',
    classify_intent_hf timeout_env "show my balance" None 5 []
    = (inr {| intent := "general"; confidence := 0; all_scores := [];
              raw_label := None; source := Some "hf_api";
              error := Some "Request timeout" |}, tr') /\
    tr' = [] ++ [EvPost (hf_request timeout_env "show my balance" None 5)] /\
    post_count tr' = post_count [] + 1.
Proof.
  split; [reflexivity|]. split; [reflexivity|].
  apply (timeout_is_not_retried timeout_env "show my balance" None 5 []
           "read timed out"); reflexivity.
Defined.

Lemma composed_text_witness :
  is_blank "E" = false /\
  exists result sent,
    classify_intent_hf balance_env "E"
      (Some [turn_of "A"; turn_of "B"; turn_of "C"; turn_of "D"]) 5 []
    = (result, [] ++ sent) /\
    sent_texts sent <> [] /\
    Forall (eq "C D E") (sent_texts sent).
Proof.
  split; [reflexivity|].
  apply (proj1 (proj2 composed_text_meets_spec) balance_env "E"
           (Some [turn_of "A"; turn_of "B"; turn_of "C"; turn_of "D"]) 5%Z []).
  reflexivity.
Defined.

Lemma blank_context_witness :
  (PyDict.get String.eqb textless_turn "text" = None \/
   PyDict.get String.eqb textless_turn "text" = Some "") /\
  (PyDict.get String.eqb (turn_of "") "text" = None \/
   PyDict.get String.eqb (turn_of "") "text" = Some "") /\
  compose_context "hi" (Some ([turn_of "earlier"] ++ [textless_turn; turn_of ""]))
  = "  hi" /\
  compose_context "hi" (Some [turn_of ""]) = "hi".
Proof.
  split; [left; reflexivity|]. split; [right; reflexivity|].
  destruct (blank_context_prefixes_two_spaces "hi" [turn_of "earlier"]
              textless_turn (turn_of "")
              (or_introl eq_refl) (or_intror eq_refl))
    as (_ & Htwo & _ & Hone & _).
  split; [exact Htwo | exact Hone].
Defined.

Lemma canonical_keys_witness :
  is_blank "show my balance" = false /\
  over_labels balance_ranking /\
  exists result,
    classify_intent_hf balance_env "show my balance" None 5 []
    = (inr result, [EvPost (hf_request balance_env "show my balance" None 5)]) /\
    canonical_scores balance_ranking (all_scores result).
Proof.
  assert (Hb : is_blank "show my balance" = false) by reflexivity.
  assert (Ho : over_labels balance_ranking)
    by (apply over_labels_check; reflexivity).
  split; [exact Hb|]. split; [exact Ho|].
  exact (proj1 (all_scores_keys_are_canonical_intents
                  balance_env "show my balance" None 5 [] balance_ranking Hb Ho)
           _ balance_env_answers).
Defined.

(** C8 as stated fails: the endpoint ranks the label mystery, which the
    Intent Mapping does not know, first; the selected intent is
    ["general"], but [all_scores] files the label under ["mystery"] and
    has no entry ["general"]. *)
Lemma unmapped_label_not_filed_under_general :
  mapping_lookup "mystery" = None /\
  exists result,
    classify_intent_hf foreign_env "hello there" None 5 []
    = (inr result, [EvPost (hf_request foreign_env "hello there" None 5)]) /\
    raw_label result = Some (VStr "mystery") /\
    intent result = "general" /\
    all_scores result = [(VStr "mystery", (9 # 10)%Q); (VStr "greeting", (1 # 10)%Q)] /\
    PyDict.get py_key_eqb (all_scores result) (VStr "general") = None /\
    ~ In (VStr "general") (PyDict.keys (all_scores result)).
Proof.
  split; [reflexivity|].
  exists (ranked_result (Some "hf_api") foreign_ranking "mystery" (9 # 10)%Q).
  split; [vm_compute; reflexivity|]. repeat split.
  simpl. intros [H|[H|[]]]; discriminate.
Qed.

Lemma raw_key_witness :
  is_blank "hello there" = false /\
  PyList.first foreign_ranking = Some ("mystery", (9 # 10)%Q) /\
  exists result,
    classify_intent_hf foreign_env "hello there" None 5 []
    = (inr result, [EvPost (hf_request foreign_env "hello there" None 5)]) /\
    raw_key_fallback foreign_ranking result.
Proof.
  split; [reflexivity|]. split; [reflexivity|].
  exact (proj1 (unmapped_label_keeps_raw_key
                  foreign_env "hello there" None 5 [] foreign_ranking
                  "mystery" (9 # 10)%Q eq_refl eq_refl)
           _ foreign_env_answers).
Defined.

Lemma last_score_witness :
  is_blank "show my balance" = false /\
  (exists l s, In (l, s) (tl balance_ranking) /\
               scores_key l = mapping_get_str "check_balance" "general") /\
  exists result,
    classify_intent_hf balance_env "show my balance" None 5 []
    = (inr result, [EvPost (hf_request balance_env "show my balance" None 5)]) /\
    takes_last_score "check_balance" (1 # 2)%Q (tl balance_ranking) result.
Proof.
  assert (Hs : exists l s, In (l, s) (tl balance_ranking) /\
                           scores_key l = mapping_get_str "check_balance" "general")
    by (exists "check_portfolio", (3 # 10)%Q; split; [left; reflexivity | reflexivity]).
  split; [reflexivity|]. split; [exact Hs|].
  exact (proj1 (shared_intent_takes_last_score
                  balance_env "show my balance" None 5 []
                  "check_balance" (1 # 2)%Q (tl balance_ranking) eq_refl Hs)
           _ balance_env_answers).
Defined.

(* ================================================================== *)
(** ** Further properties of the two functions *)

Lemma whitespace_only_false (message : string) :
  PyStr.whitespace_only message = false <-> is_blank message = false.
Proof. rewrite <- !not_true_iff_false, is_blank_iff. reflexivity. Qed.

(** What the remote path does to the outside world on a typed history:
    nothing for a message made of white space; otherwise the request
    once, or, exactly when the first answer has status 503, the request,
    a sleep of two seconds and the same request again. *)
Lemma hf_typed_effects
    (E : environment) (message : string) (history : option (list turn))
    (timeout : Z) (tr : trace) :
  exists result sent,
    classify_intent_hf E message history timeout tr = (inr result, tr ++ sent) /\
    ((PyStr.whitespace_only message = true /\
      sent = [] /\ result = hf_failure "Empty message") \/
     (PyStr.whitespace_only message = false /\
      ~ loading_first E tr (hf_request E message history timeout) /\
      sent = [EvPost (hf_request E message history timeout)]) \/
     (PyStr.whitespace_only message = false /\
      loading_first E tr (hf_request E message history timeout) /\
      sent = [EvPost (hf_request E message history timeout);
              EvSleep 2;
              EvPost (hf_request E message history timeout)])).
Proof.
  destruct (PyStr.whitespace_only message) eqn:Hw.
  - exists (hf_failure "Empty message"), [].
    rewrite app_nil_r, (hf_blank_message E message history timeout tr Hw).
    split; [reflexivity|]. left. now repeat split.
  - pose proof (proj1 (whitespace_only_false message) Hw) as Hb.
    rewrite (classify_intent_hf_run E _ _ _ _ Hb).
    unfold hf_request, loading_first.
    set (r := build_request E (compose_context message history) timeout).
    destruct (post E (post_count tr) r) as [e|resp] eqn:Hp.
    + rewrite (hf_try_fetched E _ _ _ _ _ (hf_fetch_raises E _ _ _ e Hp)).
      cbn [fst snd]. fold r. eexists _, _. split; [reflexivity|].
      right. left. split; [reflexivity|]. split; [|reflexivity].
      intros (resp & Hresp & _). discriminate.
    + destruct (Z.eq_dec (status_code resp) 503) as [H503|H503].
      * rewrite (hf_try_fetched E _ _ _ _ _ (hf_fetch_loading E _ _ _ resp Hp H503)).
        cbn [fst snd]. fold r. eexists _, _. split; [reflexivity|].
        right. right. split; [reflexivity|]. split; [|reflexivity].
        now exists resp.
      * rewrite (hf_try_fetched E _ _ _ _ _ (hf_fetch_answered E _ _ _ resp Hp H503)).
        cbn [fst snd]. fold r. eexists _, _. split; [reflexivity|].
        right. left. split; [reflexivity|]. split; [|reflexivity].
        intros (resp' & Hresp & Hs). injection Hresp as <-. contradiction.
Qed.

(** What the local path does to the outside world on a typed history. *)
Lemma local_typed_effects
    (E : environment) (message : string) (history : option (list turn))
    (tr : trace) :
  exists result sent,
    classify_intent E message history tr = (inr result, tr ++ sent) /\
    ((PyStr.whitespace_only message = true /\
      sent = [] /\ result = local_failure None) \/
     (PyStr.whitespace_only message = false /\
      sent = [EvPipeline (compose_context message history) INTENT_LABELS false])).
Proof.
  destruct (PyStr.whitespace_only message) eqn:Hw.
  - exists (local_failure None), [].
    rewrite app_nil_r, (local_blank_message E message history tr Hw).
    split; [reflexivity|]. left. now repeat split.
  - pose proof (proj1 (whitespace_only_false message) Hw) as Hb.
    rewrite (classify_intent_run E _ _ _ Hb), local_try_run.
    cbn [fst snd]. eexists _, _. split; [reflexivity|]. now right.
Qed.

(** X3. Every request the remote path sends goes to
    [HF_API_URL/HF_MODEL], carries the composed text, the whole label set,
    [multi_label=False] and the caller's timeout, and bears an
    [Authorization: Bearer] header exactly when [HF_API_TOKEN] is not
    empty. *)
Theorem requests_carry_labels_and_token
    (E : environment) (message : string) (history : option (list turn))
    (timeout : Z) (tr : trace) :
  exists result sent,
    classify_intent_hf E message history timeout tr = (result, tr ++ sent) /\
    forall r, In (EvPost r) sent ->
      url r = (HF_API_URL E ++ "/" ++ HF_MODEL E)%string /\
      inputs r = compose_context message history /\
      candidate_labels r = INTENT_LABELS /\
      multi_label r = false /\
      req_timeout r = timeout /\
      (HF_API_TOKEN E = "" ->
       headers r = [("Content-Type", "application/json")]) /\
      (HF_API_TOKEN E <> "" ->
       headers r = [("Content-Type", "application/json");
                    ("Authorization", ("Bearer " ++ HF_API_TOKEN E)%string)]).
Proof.
  assert (Hsent : exists result sent,
             classify_intent_hf E message history timeout tr = (result, tr ++ sent) /\
             forall r, In (EvPost r) sent ->
                       r = build_request E (compose_context message history) timeout).
  { destruct (is_blank message) eqn:Hb.
    - exists (inr (hf_failure "Empty message")), [].
      unfold classify_intent_hf. rewrite Hb, app_nil_r.
      split; [reflexivity | intros r []].
    - destruct (hf_fetch_trace E (compose_context message history) timeout tr)
        as (fetched & sent & Hf & Hcases).
      rewrite (classify_intent_hf_run E _ _ _ _ Hb), (hf_try_fetched E _ _ _ _ _ Hf).
      cbn [fst snd]. eexists _, sent. split; [reflexivity|].
      intros r Hin. destruct Hcases as [-> | ->]; simpl in Hin;
        intuition congruence. }
  destruct Hsent as (result & sent & Hrun & Hsent).
  exists result, sent. split; [exact Hrun|].
  intros r Hin. apply Hsent in Hin as Hr.
  subst r. unfold build_request, CLASSIFIER_URL. cbn [url inputs candidate_labels
    multi_label req_timeout headers].
  repeat split.
  - intros ->. reflexivity.
  - intros Hne. destruct (HF_API_TOKEN E); [contradiction | reflexivity].
Qed.

(** X4. An error status other than 503 is not retried: one request, no
    sleep, and the degraded result whose error is the text of the
    [HTTPError]. *)
Theorem error_status_is_not_retried
    (E : environment) (message : string) (history : option (list turn))
    (timeout : Z) (tr : trace) (resp : response) :
  is_blank message = false ->
  post E (post_count tr) (hf_request E message history timeout) = inr resp ->
  (400 <= status_code resp < 600)%Z ->
  status_code resp <> 503%Z ->
  classify_intent_hf E message history timeout tr
  = (inr {| intent := "general"; confidence := 0; all_scores := [];
            raw_label := None; source := Some "hf_api";
            error := Some (exn_str E (HTTPError (status_code resp))) |},
     tr ++ [EvPost (hf_request E message history timeout)]).
Proof.
  intros Hb Hp Hs H503. unfold hf_request in *.
  rewrite (classify_intent_hf_run E _ _ _ _ Hb).
  rewrite (hf_try_fetched E _ _ _ _ _ (hf_fetch_answered E _ _ _ resp Hp H503)).
  now rewrite (checked_body_error resp Hs).
Qed.

(** *** Answers of unexpected shape *)

Lemma hf_normalize_unwrapped (E : environment) (body : pyval)
    (items : list (string * pyval)) :
  unwrapped body = VDict items ->
  hf_normalize E body = hf_normalize E (VDict items).
Proof.
  intros H. destruct body as [| | | |l|]; simpl in H; try discriminate.
  - destruct l as [|x l]; [discriminate|]. simpl in H. now subst x.
  - now injection H as ->.
Qed.

Lemma hf_normalize_not_dict (E : environment) (body : pyval) :
  (forall items, unwrapped body <> VDict items) ->
  hf_normalize E body = inl (UnexpectedFormat (unwrapped body)).
Proof.
  intros H. unfold hf_normalize. fold (unwrapped body).
  destruct (unwrapped body); try reflexivity. now destruct (H items).
Qed.

Lemma classify_intent_hf_fetched (E : environment) (message : string)
    (history : option (list turn)) (timeout : Z) (tr tr' : trace) (body : pyval) :
  is_blank message = false ->
  hf_fetch E (compose_context message history) timeout tr = (inr body, tr') ->
  classify_intent_hf E message history timeout tr =
  (inr match hf_normalize E body with
       | inr result => result
       | inl e => hf_failure (hf_error_text E e)
       end, tr').
Proof.
  intros Hb Hf.
  now rewrite (classify_intent_hf_run E _ _ _ _ Hb), (hf_try_fetched E _ _ _ _ _ Hf).
Qed.

(** X5. What the remote path makes of an answer that is not the expected
    dict of ranked labels and scores.  After taking one list off: anything
    but a dict, or a dict without ["labels"], is reported as an
    unexpected format; an empty ["labels"] or ["scores"] list as an index
    error; a missing ["scores"] as a key error.  In each case the caller
    gets the degraded result with the text of that exception. *)
Theorem malformed_answers_are_reported
    (E : environment) (message : string) (history : option (list turn))
    (timeout : Z) (tr tr' : trace) (body : pyval) :
  is_blank message = false ->
  hf_fetch E (compose_context message history) timeout tr = (inr body, tr') ->
  ((forall items, unwrapped body <> VDict items) ->
   classify_intent_hf E message history timeout tr
   = (inr (hf_failure (exn_str E (UnexpectedFormat (unwrapped body)))), tr')) /\
  (forall items,
      unwrapped body = VDict items ->
      (PyDict.get String.eqb items "labels" = None ->
       classify_intent_hf E message history timeout tr
       = (inr (hf_failure (exn_str E (UnexpectedFormat (VDict items)))), tr')) /\
      (PyDict.get String.eqb items "labels" = Some (VList []) ->
       classify_intent_hf E message history timeout tr
       = (inr (hf_failure (exn_str E IndexError)), tr')) /\
      (forall x rest,
          PyDict.get String.eqb items "labels" = Some (VList (x :: rest)) ->
          (PyDict.get String.eqb items "scores" = None ->
           classify_intent_hf E message history timeout tr
           = (inr (hf_failure (exn_str E (KeyError (VStr "scores")))), tr')) /\
          (PyDict.get String.eqb items "scores" = Some (VList []) ->
           classify_intent_hf E message history timeout tr
           = (inr (hf_failure (exn_str E IndexError)), tr')))).
Proof.
  intros Hb Hf. rewrite (classify_intent_hf_fetched E _ _ _ _ _ _ Hb Hf).
  split.
  - intros Hnot. now rewrite (hf_normalize_not_dict E body Hnot).
  - intros items Hu. rewrite (hf_normalize_unwrapped E body items Hu).
    unfold hf_normalize. split; [|split].
    + now intros ->.
    + now intros ->.
    + intros x rest ->. cbn [subscript0 fbind]. split; now intros ->.
Qed.

(** *** Lists of unequal length *)

Lemma combine_listed (ls : list string) (ss : list Q) :
  combine (map VStr ls) (map VNum ss)
  = map (fun p => (VStr (fst p), VNum (snd p))) (combine ls ss).
Proof.
  revert ss. induction ls as [|l ls IH]; intros [|s ss]; simpl; try reflexivity.
  now rewrite IH.
Qed.

Lemma hf_normalize_listed (E : environment) (ls : list string) (ss : list Q)
    (l0 : string) (s0 : Q) (v : pyval) :
  PyList.first ls = Some l0 ->
  PyList.first ss = Some s0 ->
  listed_dict ls ss v ->
  hf_normalize E v = inr (ranked_result (Some "hf_api") (combine ls ss) l0 s0).
Proof.
  intros Hl0 Hs0 (items & -> & Hl & Hs).
  destruct ls as [|l ls]; [discriminate|]. injection Hl0 as ->.
  destruct ss as [|s ss]; [discriminate|]. injection Hs0 as ->.
  unfold hf_normalize. rewrite Hl, Hs.
  cbn [map subscript0 fbind py_iter]. rewrite mapping_get_intent. cbn [fbind].
  change (VStr l0 :: map VStr ls) with (map VStr (l0 :: ls)).
  change (VNum s0 :: map VNum ss) with (map VNum (s0 :: ss)).
  rewrite combine_listed, hf_all_scores_ranking. cbn [fbind py_float].
  unfold ranked_result. f_equal. f_equal.
  apply (PyDictFacts.of_items_embed String.eqb py_key_eqb VStr py_key_eqb_VStr).
Qed.

Lemma length_set {K V : Type} (eqb : K -> K -> bool) (d : list (K * V)) (k : K) (v : V) :
  length (PyDict.set eqb d k v) <= S (length d).
Proof.
  induction d as [|[k0 v0] d IH]; simpl; [lia|].
  destruct (eqb k0 k); simpl; lia.
Qed.

Lemma length_fill {K V : Type} (eqb : K -> K -> bool) (items d : list (K * V)) :
  length (PyDict.fill eqb items d) <= length items + length d.
Proof.
  unfold PyDict.fill. revert d.
  induction items as [|[k v] items IH]; intros d; simpl; [lia|].
  specialize (IH (PyDict.set eqb d k v)).
  pose proof (length_set eqb d k v). lia.
Qed.

Lemma length_ranked_scores (src : option string) (r : ranking) (l0 : string) (s0 : Q) :
  length (all_scores (ranked_result src r l0 s0)) <= length r.
Proof.
  unfold ranked_result, PyDict.embed, PyDict.of_items, scores_items.
  cbn [all_scores]. rewrite length_map.
  pose proof (length_fill String.eqb
                (map (fun p : string * Q => (scores_key (fst p), snd p)) r) []) as H.
  rewrite length_map in H. simpl in H. lia.
Qed.

(** X6. Neither path checks that there are as many scores as labels: when
    both lists are non-empty the classification succeeds, intent and
    confidence come from the two heads, and [all_scores] is built from the
    pairs that [zip] forms, so the labels (or scores) beyond the shorter
    list are dropped without an error. *)
Theorem unequal_lists_are_truncated
    (E : environment) (message : string) (history : option (list turn))
    (timeout : Z) (tr : trace) (ls : list string) (ss : list Q)
    (l0 : string) (s0 : Q) :
  is_blank message = false ->
  PyList.first ls = Some l0 ->
  PyList.first ss = Some s0 ->
  (forall body tr',
      hf_fetch E (compose_context message history) timeout tr = (inr body, tr') ->
      listed_dict ls ss (unwrapped body) ->
      exists result,
        classify_intent_hf E message history timeout tr = (inr result, tr') /\
        result = ranked_result (Some "hf_api") (combine ls ss) l0 s0 /\
        length (all_scores result) <= Nat.min (length ls) (length ss)) /\
  (forall out,
      classifier E (compose_context message history) INTENT_LABELS false = inr out ->
      labels out = ls ->
      scores out = ss ->
      exists result,
        classify_intent E message history tr
        = (inr result, tr ++ [pipeline_call message history]) /\
        result = ranked_result None (combine ls ss) l0 s0 /\
        length (all_scores result) <= Nat.min (length ls) (length ss)).
Proof.
  intros Hb Hl0 Hs0. split.
  - intros body tr' Hf Hd.
    eexists. split; [|split; [reflexivity|]].
    + rewrite (classify_intent_hf_fetched E _ _ _ _ _ _ Hb Hf).
      destruct Hd as (items & Hu & Hl & Hs).
      rewrite (hf_normalize_unwrapped E body items Hu).
      rewrite (hf_normalize_listed E ls ss l0 s0 (VDict items) Hl0 Hs0);
        [reflexivity | now exists items].
    + rewrite <- length_combine. apply length_ranked_scores.
  - intros out Hc Hl Hs.
    eexists. split; [|split; [reflexivity|]].
    + rewrite (classify_intent_run E _ _ _ Hb), local_try_run, Hc.
      cbn [fst snd fbind]. unfold local_normalize. rewrite Hl, Hs, Hl0, Hs0.
      cbn [fbind]. rewrite <- embed_scores_items.
      unfold pipeline_call, ranked_result. do 3 f_equal.
      apply (PyDictFacts.of_items_embed String.eqb py_key_eqb VStr py_key_eqb_VStr).
    + rewrite <- length_combine. apply length_ranked_scores.
Qed.

(** *** What every result looks like *)

Lemma hf_normalize_success (E : environment) (body : pyval) (result : classification) :
  hf_normalize E body = inr result ->
  exists top,
    raw_label result = Some top /\
    error result = None /\
    source result = Some "hf_api" /\
    mapping_get (fun c => c) top "general" = inr (intent result).
Proof.
  unfold hf_normalize. fold (unwrapped body).
  destruct (unwrapped body) as [| | | | |items]; try discriminate.
  destruct (PyDict.get String.eqb items "labels") as [lv|]; [|discriminate].
  destruct (subscript0 lv) as [e|top]; [discriminate|]. cbn [fbind].
  destruct (PyDict.get String.eqb items "scores") as [sv|]; [|discriminate].
  cbn [fbind].
  destruct (subscript0 sv) as [e|conf]; [discriminate|]. cbn [fbind].
  destruct (mapping_get (fun c => c) top "general") as [e|i] eqn:Hi;
    [discriminate|]. cbn [fbind].
  destruct (py_iter lv) as [e|ls]; [discriminate|]. cbn [fbind].
  destruct (py_iter sv) as [e|ss]; [discriminate|]. cbn [fbind].
  destruct (hf_all_scores E (combine ls ss) []) as [e|d]; [discriminate|].
  cbn [fbind].
  destruct (py_float E conf) as [e|c]; [discriminate|]. cbn [fbind].
  intros H. injection H as <-. exists top. now repeat split.
Qed.

Lemma local_normalize_success (out : pipeline_output) (result : classification) :
  local_normalize out = inr result ->
  exists l0,
    raw_label result = Some (VStr l0) /\
    error result = None /\
    source result = None /\
    intent result = mapping_get_str l0 "general".
Proof.
  unfold local_normalize.
  destruct (PyList.first (labels out)) as [l0|]; [|discriminate]. cbn [fbind].
  destruct (PyList.first (scores out)) as [s0|]; [|discriminate]. cbn [fbind].
  intros H. injection H as <-. exists l0. now repeat split.
Qed.

Lemma get_in_values {V : Type} (d : list (string * V)) (k : string) (v : V) :
  PyDict.get String.eqb d k = Some v -> In v (map snd d).
Proof.
  induction d as [|[k0 v0] d IH]; simpl; [discriminate|].
  destruct (String.eqb k0 k).
  - intros H. injection H as ->. now left.
  - intros H. right. now apply IH.
Qed.

Lemma get_in_keys {V : Type} (d : list (string * V)) (k : string) (v : V) :
  PyDict.get String.eqb d k = Some v -> In k (map fst d).
Proof.
  induction d as [|[k0 v0] d IH]; simpl; [discriminate|].
  destruct (String.eqb k0 k) eqn:Hk.
  - intros _. left. now apply String.eqb_eq.
  - intros H. right. now apply IH.
Qed.



(** Every run of the remote path ends in a degraded result or in a
    result that [hf_normalize] built. *)
Lemma hf_run_shape (E : environment) (message : string)
    (history : option (list turn)) (timeout : Z) (tr : trace) :
  exists result tr',
    classify_intent_hf E message history timeout tr = (inr result, tr') /\
    ((exists text, result = hf_failure text) \/
     (exists body, hf_normalize E body = inr result)).
Proof.
  destruct (is_blank message) eqn:Hb.
  - unfold classify_intent_hf. rewrite Hb. eexists _, _.
    split; [reflexivity|]. left. now eexists.
  - destruct (hf_fetch E (compose_context message history) timeout tr)
      as [[e|body] tr'] eqn:Hf.
    + rewrite (classify_intent_hf_run E _ _ _ _ Hb), (hf_try_fetched E _ _ _ _ _ Hf).
      eexists _, _. split; [reflexivity|]. left. now eexists.
    + rewrite (classify_intent_hf_fetched E _ _ _ _ _ _ Hb Hf).
      eexists _, _. split; [reflexivity|].
      destruct (hf_normalize E body) as [e|result] eqn:Hn.
      * left. now eexists.
      * right. now exists body.
Qed.

(** The same for the local path. *)
Lemma local_run_shape (E : environment) (message : string)
    (history : option (list turn)) (tr : trace) :
  exists result tr',
    classify_intent E message history tr = (inr result, tr') /\
    ((exists text, result = local_failure text) \/
     (exists out, local_normalize out = inr result)).
Proof.
  destruct (is_blank message) eqn:Hb.
  - unfold classify_intent. rewrite Hb. eexists _, _.
    split; [reflexivity|]. left. now exists None.
  - rewrite (classify_intent_run E _ _ _ Hb), local_try_run. cbn [fst snd].
    eexists _, _. split; [reflexivity|].
    destruct (classifier E (compose_context message history) INTENT_LABELS false)
      as [e|out]; cbn [fbind].
    + left. now eexists.
    + destruct (local_normalize out) as [e|result] eqn:Hn.
      * left. now eexists.
      * right. now exists out.
Qed.


(** X8. On the remote path the [error] entry tells the two kinds of result
    apart: a result without [error] has a raw label, and a result with
    [error] is the degraded one (intent ["general"], confidence 0, no
    scores, no raw label); [source] is always ["hf_api"].  On the local
    path a result is either the degraded one (with or without [error]) or
    has a raw label and no [error], and never has a [source]. *)
Theorem error_marks_the_degraded_result
    (E : environment) (message : string) (history : option (list turn))
    (timeout : Z) (tr : trace) :
  (exists result tr',
      classify_intent_hf E message history timeout tr = (inr result, tr') /\
      source result = Some "hf_api" /\
      ((error result = None /\ exists top, raw_label result = Some top) \/
       ((exists text, error result = Some text) /\ degraded result))) /\
  (exists result tr',
      classify_intent E message history tr = (inr result, tr') /\
      source result = None /\
      ((error result = None /\ exists l0, raw_label result = Some (VStr l0)) \/
       degraded result)).
Proof.
  split.
  - destruct (hf_run_shape E message history timeout tr)
      as (result & tr' & Hrun & Hshape);
      exists result, tr'; (split; [exact Hrun|]);
      destruct Hshape as [(text & ->) | (body & Hn)].
    + split; [reflexivity|]. right. split; [now exists text | now repeat split].
    + destruct (hf_normalize_success E body result Hn) as (top & Hr & He & Hs & _).
      split; [exact Hs|]. left. split; [exact He | now exists top].
  - destruct (local_run_shape E message history tr)
      as (result & tr' & Hrun & Hshape);
      exists result, tr'; (split; [exact Hrun|]);
      destruct Hshape as [(text & ->) | (out & Hn)].
    + split; [reflexivity|]. right. now repeat split.
    + destruct (local_normalize_success out result Hn) as (l0 & Hr & He & Hs & _).
      split; [exact Hs|]. left. split; [exact He | now exists l0].
Qed.

(** *** The two paths side by side *)

Lemma hf_normalize_empty_ranking (E : environment) (body : pyval) :
  json_ranking [] body -> hf_normalize E body = inl IndexError.
Proof.
  intros [(items & -> & Hl & _) | (d & rest & -> & (items & -> & Hl & _))];
    unfold hf_normalize; cbn [map] in Hl; now rewrite Hl.
Qed.

(** X9. Given the same ranking, the remote and the local path return the
    same intent, confidence, [all_scores], raw label and [error]; the
    remote result has the [source] ["hf_api"], the local one has none. *)
Theorem paths_agree_on_a_ranking
    (E : environment) (message : string) (history : option (list turn))
    (timeout : Z) (tr tr' : trace) (r : ranking) :
  is_blank message = false ->
  hf_answers E message history timeout tr r tr' ->
  pipeline_answers E message history r ->
  exists remote local,
    classify_intent_hf E message history timeout tr = (inr remote, tr') /\
    classify_intent E message history tr
    = (inr local, tr ++ [pipeline_call message history]) /\
    intent remote = intent local /\
    confidence remote = confidence local /\
    all_scores remote = all_scores local /\
    raw_label remote = raw_label local /\
    error remote = error local /\
    source remote = Some "hf_api" /\
    source local = None.
Proof.
  intros Hb (body & Hf & Hr) (out & Hc & Ho).
  destruct r as [|[l0 s0] rest].
  - rewrite (classify_intent_hf_fetched E _ _ _ _ _ _ Hb Hf).
    rewrite (hf_normalize_empty_ranking E body Hr).
    rewrite (classify_intent_run E _ _ _ Hb), local_try_run, Hc.
    destruct Ho as [Hl Hs]. cbn [fst snd fbind].
    unfold local_normalize. rewrite Hl.
    cbn [map PyList.first fbind fst snd].
    eexists _, _. split; [reflexivity|]. split; [reflexivity|].
    now repeat split.
  - exists (ranked_result (Some "hf_api") ((l0, s0) :: rest) l0 s0),
           (ranked_result None ((l0, s0) :: rest) l0 s0).
    split; [now apply classify_intent_hf_ranked with (body := body)|].
    split; [now apply classify_intent_ranked with (out := out)|].
    now repeat split.
Qed.

(** *** The registry *)

Lemma get_of_in {V : Type} (d : list (string * V)) (k : string) (v : V) :
  NoDup (map fst d) -> In (k, v) d -> PyDict.get String.eqb d k = Some v.
Proof.
  induction d as [|[k0 v0] d IH]; simpl; [intros _ []|].
  intros Hnd [Heq|Hin].
  - injection Heq as -> ->. now rewrite String.eqb_refl.
  - inversion Hnd as [|? ? Hnot Hrest]; subst.
    destruct (String.eqb k0 k) eqn:Hk.
    + apply String.eqb_eq in Hk. subst k0.
      destruct Hnot. apply in_map_iff. now exists (k, v).
    + now apply IH.
Qed.

Lemma labels_NoDup : NoDup INTENT_LABELS.
Proof.
  change INTENT_LABELS with (nodup string_dec INTENT_LABELS).
  apply NoDup_nodup.
Qed.

Lemma mapping_keys : map fst INTENT_MAPPING = INTENT_LABELS.
Proof. reflexivity. Qed.

Lemma mapping_domain (l : string) :
  (exists c, mapping_lookup l = Some c) <-> In l INTENT_LABELS.
Proof.
  split.
  - intros (c & Hc). rewrite <- mapping_keys. exact (get_in_keys _ _ _ Hc).
  - intros H. exists (scores_key l). now apply mapping_total.
Qed.

Lemma general_iff_unregistered (l : string) :
  mapping_get_str l "general" = "general" <-> ~ In l INTENT_LABELS.
Proof.
  split.
  - intros H Hin. simpl in Hin.
    repeat (destruct Hin as [<-|Hin]; [discriminate H|]). contradiction.
  - intros Hnot. unfold mapping_get_str, PyDict.get_default.
    destruct (PyDict.get String.eqb INTENT_MAPPING l) as [c|] eqn:Hc;
      [|reflexivity].
    destruct Hnot. apply mapping_domain. now exists c.
Qed.

(** X10. After a successful classification by either path, the intent is
    ["general"] exactly when the top raw label is not one of the labels of
    the registry: no label of the registry is mapped to ["general"]. *)
Theorem general_signals_an_unknown_label
    (E : environment) (message : string) (history : option (list turn))
    (timeout : Z) (tr : trace) (r : ranking) (l0 : string) (s0 : Q) :
  is_blank message = false ->
  PyList.first r = Some (l0, s0) ->
  (forall tr',
      hf_answers E message history timeout tr r tr' ->
      exists result,
        classify_intent_hf E message history timeout tr = (inr result, tr') /\
        (intent result = "general" <-> ~ In l0 INTENT_LABELS)) /\
  (pipeline_answers E message history r ->
   exists result,
     classify_intent E message history tr
     = (inr result, tr ++ [pipeline_call message history]) /\
     (intent result = "general" <-> ~ In l0 INTENT_LABELS)).
Proof.
  intros Hb Hfirst. split.
  - intros tr' (body & Hf & Hr).
    exists (ranked_result (Some "hf_api") r l0 s0). split.
    + now apply classify_intent_hf_ranked with (body := body).
    + apply general_iff_unregistered.
  - intros (out & Hc & Hr).
    exists (ranked_result None r l0 s0). split.
    + now apply classify_intent_ranked with (out := out).
    + apply general_iff_unregistered.
Qed.

(** X11. The registry both files define is consistent: the labels are
    pairwise distinct; the Intent Mapping has an entry for each of them,
    in the same order, and for nothing else; two distinct labels share a
    canonical intent only when it is ["dashboard"]; that makes fourteen
    canonical intents, and ["general"] is not one of them. *)
Theorem registry_is_consistent :
  NoDup INTENT_LABELS /\
  map fst INTENT_MAPPING = INTENT_LABELS /\
  (forall l, (exists c, mapping_lookup l = Some c) <-> In l INTENT_LABELS) /\
  (forall l1 l2 c,
      mapping_lookup l1 = Some c -> mapping_lookup l2 = Some c ->
      l1 <> l2 -> c = "dashboard") /\
  length canonical_intents = 14 /\
  ~ In "general" canonical_intents.
Proof.
  split; [exact labels_NoDup|]. split; [exact mapping_keys|].
  split; [exact mapping_domain|]. split; [|split].
  - intros l1 l2 c H1 H2 Hne.
    assert (Hin1 : In l1 INTENT_LABELS) by (apply mapping_domain; now exists c).
    assert (Hin2 : In l2 INTENT_LABELS) by (apply mapping_domain; now exists c).
    simpl in Hin1.
    repeat (destruct Hin1 as [<-|Hin1];
            [ vm_compute in H1; injection H1 as <-; simpl in Hin2;
              repeat (destruct Hin2 as [<-|Hin2];
                      [ first [ reflexivity
                              | now destruct Hne
                              | discriminate H2 ] |]);
              contradiction |]).
    contradiction.
  - reflexivity.
  - vm_compute. intuition discriminate.
Qed.

Lemma NoDup_map_VStr (ks : list string) : NoDup ks -> NoDup (map VStr ks).
Proof.
  induction 1 as [|c ks Hnot Hnd IH]; simpl; constructor; [|exact IH].
  intros Hin. apply in_map_iff in Hin as (c' & Heq & Hc').
  injection Heq as ->. exact (Hnot Hc').
Qed.

Lemma canonical_intents_reached (c : string) :
  In c canonical_intents <->
  exists l, In l INTENT_LABELS /\ mapping_lookup l = Some c.
Proof.
  unfold canonical_intents. rewrite nodup_In, in_map_iff. split.
  - intros ([l c'] & Heq & Hin). simpl in Heq. subst c'.
    exists l. split.
    + rewrite <- mapping_keys. apply in_map_iff. now exists (l, c).
    + apply get_of_in; [|exact Hin].
      rewrite mapping_keys. exact labels_NoDup.
  - intros (l & _ & Hl). apply in_map_iff.
    exact (get_in_values _ _ _ Hl).
Qed.

Lemma full_ranking_scores_length (src : option string) (r : ranking)
    (l0 : string) (s0 : Q) :
  over_labels r ->
  length (all_scores (ranked_result src r l0 s0)) = 14.
Proof.
  intros Hover.
  destruct (scores_canonical r Hover) as (Hkeys & Hnd & _ & _).
  cbn [all_scores ranked_result].
  set (d := PyDict.embed VStr (PyDict.of_items String.eqb (scores_items r))) in *.
  replace (length d) with (length (PyDict.keys d))
    by (unfold PyDict.keys; apply length_map).
  assert (Hcan : NoDup (map VStr canonical_intents))
    by (apply NoDup_map_VStr, NoDup_nodup).
  assert (Hlen : length (map VStr canonical_intents) = 14) by reflexivity.
  apply Nat.le_antisymm.
  - rewrite <- Hlen. apply NoDup_incl_length; [exact Hnd|].
    intros k Hk. apply Hkeys in Hk as (l & c & Hl & Hc & ->).
    apply in_map, canonical_intents_reached. now exists l.
  - rewrite <- Hlen. apply NoDup_incl_length; [exact Hcan|].
    intros k Hk. apply in_map_iff in Hk as (c & <- & Hc).
    apply canonical_intents_reached in Hc as (l & Hl & Hc).
    apply Hkeys. now exists l, c.
Qed.

(** X12. After a successful classification of a ranking of the label set,
    [all_scores] has exactly fourteen entries for the fifteen labels, on
    either path: check_balance and check_portfolio share the entry
    ["dashboard"]. *)
Theorem full_ranking_gives_fourteen_scores
    (E : environment) (message : string) (history : option (list turn))
    (timeout : Z) (tr : trace) (r : ranking) :
  is_blank message = false ->
  over_labels r ->
  (forall tr',
      hf_answers E message history timeout tr r tr' ->
      exists result,
        classify_intent_hf E message history timeout tr = (inr result, tr') /\
        length (all_scores result) = 14 /\
        (exists s, PyDict.get py_key_eqb (all_scores result) (VStr "dashboard") = Some s)) /\
  (pipeline_answers E message history r ->
   exists result,
     classify_intent E message history tr
     = (inr result, tr ++ [pipeline_call message history]) /\
     length (all_scores result) = 14 /\
     (exists s, PyDict.get py_key_eqb (all_scores result) (VStr "dashboard") = Some s)).
Proof.
  intros Hb Hover.
  destruct (first_of_cover r (over_labels_covers r Hover)) as (l0 & s0 & Hfirst).
  assert (Hdash : forall src,
             exists s, PyDict.get py_key_eqb
                         (all_scores (ranked_result src r l0 s0)) (VStr "dashboard")
                       = Some s).
  { intros src. cbn [all_scores ranked_result]. rewrite scores_get.
    apply (PyDictFacts.last_value_some String.eqb String.eqb_eq).
    unfold scores_items. rewrite map_map. simpl.
    assert (Hin : In "check_balance" (map fst r))
      by (apply Hover; simpl; tauto).
    apply in_map_iff in Hin as (p & Hp & Hin).
    apply in_map_iff. exists p. split; [now rewrite Hp | exact Hin]. }
  split.
  - intros tr' (body & Hf & Hr).
    exists (ranked_result (Some "hf_api") r l0 s0). split; [|split].
    + now apply classify_intent_hf_ranked with (body := body).
    + now apply full_ranking_scores_length.
    + apply Hdash.
  - intros (out & Hc & Hr).
    exists (ranked_result None r l0 s0). split; [|split].
    + now apply classify_intent_ranked with (out := out).
    + now apply full_ranking_scores_length.
    + apply Hdash.
Qed.

(** *** More on the composed text *)

Lemma string_app_assoc (a b c : string) :
  ((a ++ b) ++ c)%string = (a ++ b ++ c)%string.
Proof. induction a as [|x a IH]; simpl; [reflexivity | now rewrite IH]. Qed.

Lemma whitespace_only_app (a b : string) :
  PyStr.whitespace_only (a ++ b)
  = PyStr.whitespace_only a && PyStr.whitespace_only b.
Proof.
  unfold PyStr.whitespace_only.
  induction a as [|x a IH]; simpl; [reflexivity|].
  now rewrite IH, andb_assoc.
Qed.

Lemma is_blank_app (prefix message : string) :
  is_blank message = false -> is_blank (prefix ++ message) = false.
Proof.
  rewrite <- !whitespace_only_false, whitespace_only_app.
  intros ->. apply andb_false_r.
Qed.

(** The composed text is the message behind a prefix, empty or ended by a
    space. *)
Lemma compose_context_prefix (message : string) (history : option (list turn)) :
  exists prefix, compose_context message history = (prefix ++ message)%string.
Proof.
  destruct history as [[|h rest]|]; try (now exists "").
  rewrite compose_context_last_two by discriminate. cbv zeta.
  set (context := PyStr.join " " (map text_field (PyList.last_n 2 (h :: rest)))).
  destruct (PyStr.truthy context); [|now exists ""].
  exists (context ++ " ")%string. now rewrite string_app_assoc.
Qed.

(** X13. The composed text depends on the history through the texts of its
    last two turns only: earlier turns, which the three-turn window lets
    through, and the other entries of a turn never change it. *)
Theorem only_the_last_two_texts_matter
    (message : string) (history history' : list turn) :
  history <> [] ->
  history' <> [] ->
  map text_field (PyList.last_n 2 history) = map text_field (PyList.last_n 2 history') ->
  compose_context message (Some history) = compose_context message (Some history').
Proof.
  intros Hne Hne' Htexts.
  rewrite !compose_context_last_two by assumption.
  now rewrite Htexts.
Qed.

(** X14. With two turns or more the composed text is always the text of
    the last but one turn, a space, the text of the last turn, a space and
    the message, also when one of the texts or both are empty; only a
    history of a single turn with an empty or missing text leaves the
    message as it is. *)
Theorem context_of_two_turns
    (message : string) (front : list turn) (h1 h2 : turn) :
  compose_context message (Some (front ++ [h1; h2]))
  = (text_field h1 ++ " " ++ text_field h2 ++ " " ++ message)%string /\
  compose_context message (Some [h2])
  = (if PyStr.truthy (text_field h2)
     then (text_field h2 ++ " " ++ message)%string
     else message).
Proof.
  split.
  - rewrite compose_context_last_two by (now destruct front).
    pose proof (PyListFacts.last_n_app front [h1; h2]) as Hlast.
    simpl length in Hlast. rewrite Hlast. cbv zeta.
    change (PyStr.join " " (map text_field [h1; h2]))
      with (text_field h1 ++ " " ++ text_field h2)%string.
    replace (PyStr.truthy (text_field h1 ++ " " ++ text_field h2)) with true
      by (now destruct (text_field h1)).
    now rewrite !string_app_assoc.
  - rewrite compose_context_last_two by discriminate. reflexivity.
Qed.

(** X15. Neither path ever hands the classifier a blank text, and neither
    trims or alters the message: every text sent ends with the message as
    the caller gave it. *)
Theorem classifier_never_gets_blank_text
    (E : environment) (message : string) (history : option (list turn))
    (timeout : Z) (tr : trace) :
  (exists result sent,
      classify_intent_hf E message history timeout tr = (result, tr ++ sent) /\
      Forall (fun text => is_blank text = false /\
                          exists prefix, text = (prefix ++ message)%string)
             (sent_texts sent)) /\
  (exists result sent,
      classify_intent E message history tr = (result, tr ++ sent) /\
      Forall (fun text => is_blank text = false /\
                          exists prefix, text = (prefix ++ message)%string)
             (sent_texts sent)).
Proof.
  destruct (is_blank message) eqn:Hb.
  - split.
    + exists (inr (hf_failure "Empty message")), [].
      unfold classify_intent_hf. rewrite Hb, app_nil_r. now split.
    + exists (inr (local_failure None)), [].
      unfold classify_intent. rewrite Hb, app_nil_r. now split.
  - assert (Hgood : is_blank (compose_context message history) = false /\
                    exists prefix,
                      compose_context message history = (prefix ++ message)%string).
    { destruct (compose_context_prefix message history) as (prefix & Hp).
      split; [|now exists prefix]. rewrite Hp. now apply is_blank_app. }
    split.
    + destruct (hf_sends_composed_text E message history timeout tr Hb)
        as (result & sent & Hrun & _ & Hall).
      exists result, sent. split; [exact Hrun|].
      eapply Forall_impl; [|exact Hall]. now intros text <-.
    + destruct (local_sends_composed_text E message history tr Hb)
        as (result & Hrun).
      eexists _, _. split; [exact Hrun|].
      simpl. constructor; [exact Hgood | constructor].
Qed.

(* ================================================================== *)
(** ** The web endpoint *)

Lemma str_items_embed (d : list (string * Q)) :
  str_items (PyDict.embed VStr d) = Some d.
Proof.
  unfold PyDict.embed.
  induction d as [|[k v] d IH]; [reflexivity|].
  cbn [map fst snd str_items]. now rewrite IH.
Qed.

Lemma str_items_none (d : list (pyval * Q)) :
  str_items d = None ->
  exists k, In k (PyDict.keys d) /\ forall s, k <> VStr s.
Proof.
  induction d as [|[k v] d IH]; simpl; [discriminate|].
  destruct k as [| | |s| |];
    try (intros _; eexists; split; [left; reflexivity | discriminate]).
  destruct (str_items d) as [items|]; [discriminate|].
  intros _. destruct (IH eq_refl) as (k & Hin & Hk).
  exists k. split; [now right | exact Hk].
Qed.

Lemma typed_fields_ranked (src : option string) (r : ranking) (l0 : string) (s0 : Q) :
  typed_fields (ranked_result src r l0 s0)
  = Some {| resp_intent := mapping_get_str l0 "general";
            resp_confidence := s0;
            resp_all_scores := PyDict.of_items String.eqb (scores_items r);
            resp_raw_label := Some l0;
            resp_error := None |}.
Proof.
  unfold typed_fields, ranked_result. cbn [all_scores raw_label intent confidence error].
  now rewrite str_items_embed.
Qed.

(** The handler, once the call of [classify_intent_hf] is known. *)
Lemma app_classify_run (E : environment)
    (coerce : classification -> fallible ClassificationResponse)
    (request : ClassificationRequest) (tr tr' : trace) (result : classification) :
  classify_intent_hf E (req_message request) (req_history request) 5 tr
  = (inr result, tr') ->
  app_classify E coerce request tr
  = (inr match ClassificationResponse_init coerce result with
         | inr response => inr response
         | inl e => inl {| exc_status := 500; exc_detail := exn_str E e |}
         end, tr').
Proof.
  intros Hrun. unfold app_classify, try_except, bind. rewrite Hrun.
  unfold lift. now destruct (ClassificationResponse_init coerce result).
Qed.

(** X16. The endpoint answers a blank message and every failure of the
    classifier with an ordinary response, never with an HTTP error: the
    degraded classification with its [error] text, whatever the
    validation library does with ill-typed values. *)
Theorem endpoint_contains_classifier_failures
    (E : environment) (coerce : classification -> fallible ClassificationResponse)
    (request : ClassificationRequest) (tr : trace) :
  (PyStr.whitespace_only (req_message request) = true ->
   app_classify E coerce request tr
   = (inr (inr {| resp_intent := "general"; resp_confidence := 0;
                  resp_all_scores := []; resp_raw_label := None;
                  resp_error := Some "Empty message" |}), tr)) /\
  (forall e tr',
      is_blank (req_message request) = false ->
      hf_try E (compose_context (req_message request) (req_history request)) 5 tr
      = (inl e, tr') ->
      app_classify E coerce request tr
      = (inr (inr {| resp_intent := "general"; resp_confidence := 0;
                     resp_all_scores := []; resp_raw_label := None;
                     resp_error := Some (hf_error_text E e) |}), tr')).
Proof.
  split.
  - intros Hw.
    now rewrite (app_classify_run E coerce request tr tr _
                   (hf_blank_message E _ _ 5 tr Hw)).
  - intros e tr' Hb Hfail.
    assert (Hrun : classify_intent_hf E (req_message request) (req_history request) 5 tr
                   = (inr (hf_failure (hf_error_text E e)), tr'))
      by (now rewrite (classify_intent_hf_run E _ _ _ _ Hb), Hfail).
    now rewrite (app_classify_run E coerce request tr tr' _ Hrun).
Qed.

(** X17. When the endpoint of the model returns a ranking of string
    labels, the web endpoint answers with the intent mapped from the top
    label, the top score, the raw top label, no error, and the scores
    keyed by strings; the call uses the default timeout of five seconds,
    and [source] is not part of the response. *)
Theorem endpoint_returns_the_classification
    (E : environment) (coerce : classification -> fallible ClassificationResponse)
    (request : ClassificationRequest) (tr tr' : trace)
    (r : ranking) (l0 : string) (s0 : Q) :
  is_blank (req_message request) = false ->
  PyList.first r = Some (l0, s0) ->
  hf_answers E (req_message request) (req_history request) 5 tr r tr' ->
  app_classify E coerce request tr
  = (inr (inr {| resp_intent := mapping_get_str l0 "general";
                 resp_confidence := s0;
                 resp_all_scores := PyDict.of_items String.eqb (scores_items r);
                 resp_raw_label := Some l0;
                 resp_error := None |}), tr').
Proof.
  intros Hb Hfirst (body & Hf & Hr).
  rewrite (app_classify_run E coerce request tr tr' _
             (classify_intent_hf_ranked E _ _ _ _ _ body r l0 s0 Hb Hf Hr Hfirst)).
  unfold ClassificationResponse_init. now rewrite typed_fields_ranked.
Qed.

(* ================================================================== *)
(** ** Configuration of the local path *)

Lemma lower_char_cases (c : ascii) :
  (lower_char c = "t"%char -> c = "t"%char \/ c = "T"%char) /\
  (lower_char c = "r"%char -> c = "r"%char \/ c = "R"%char) /\
  (lower_char c = "u"%char -> c = "u"%char \/ c = "U"%char) /\
  (lower_char c = "e"%char -> c = "e"%char \/ c = "E"%char).
Proof.
  destruct c as [[] [] [] [] [] [] [] []]; vm_compute;
    repeat split; intros H; first [discriminate H | now left | now right].
Qed.

Lemma py_lower_true (s : string) :
  py_lower s = "true" <->
  exists a b c d,
    s = String a (String b (String c (String d ""))) /\
    (a = "t" \/ a = "T")%char /\ (b = "r" \/ b = "R")%char /\
    (c = "u" \/ c = "U")%char /\ (d = "e" \/ d = "E")%char.
Proof.
  split.
  - destruct s as [|a [|b [|c [|d [|x s]]]]]; simpl; try discriminate.
    intros H. injection H as Ha Hb Hc Hd.
    exists a, b, c, d. split; [reflexivity|].
    split; [now apply (lower_char_cases a)|].
    split; [now apply (lower_char_cases b)|].
    split; [now apply (lower_char_cases c) | now apply (lower_char_cases d)].
  - intros (a & b & c & d & -> & Ha & Hb & Hc & Hd).
    destruct Ha as [-> | ->], Hb as [-> | ->], Hc as [-> | ->], Hd as [-> | ->];
      reflexivity.
Qed.

(** X19. The local pipeline is put on the GPU (device 0) exactly when the
    environment variable USE_GPU is set to the word true in any mix of
    upper and lower case, with nothing before or after it; when the
    variable is unset or holds anything else (1, yes, true followed by a
    space) the device is -1, the CPU. *)
Theorem gpu_needs_the_word_true (environ : list (string * string)) :
  (DEVICE environ = 0%Z <->
   exists a b c d,
     PyDict.get String.eqb environ "USE_GPU"
     = Some (String a (String b (String c (String d "")))) /\
     (a = "t" \/ a = "T")%char /\ (b = "r" \/ b = "R")%char /\
     (c = "u" \/ c = "U")%char /\ (d = "e" \/ d = "E")%char) /\
  (DEVICE environ <> 0%Z -> DEVICE environ = (-1)%Z).
Proof.
  unfold DEVICE, USE_GPU, getenv, PyDict.get_default. split.
  - destruct (PyDict.get String.eqb environ "USE_GPU") as [s|].
    + destruct (String.eqb (py_lower s) "true") eqn:Hs.
      * apply String.eqb_eq, py_lower_true in Hs
          as (a & b & c & d & -> & H).
        split; [|reflexivity]. intros _. now exists a, b, c, d.
      * split; [discriminate|].
        intros (a & b & c & d & Heq & H). injection Heq as ->.
        apply String.eqb_neq in Hs. destruct Hs.
        apply py_lower_true. now exists a, b, c, d.
    + simpl. split; [discriminate|].
      intros (a & b & c & d & Heq & _). discriminate.
  - destruct (String.eqb _ "true"); [now intros [] | reflexivity].
Qed.

(* ================================================================== *)
(** ** The demonstration loops *)

(** One call of the remote path on a message that is not blank: a result,
    and one or two requests. *)
Lemma hf_call_posts (E : environment) (message : string)
    (history : option (list turn)) (timeout : Z) (tr : trace) :
  is_blank message = false ->
  exists result tr',
    classify_intent_hf E message history timeout tr = (inr result, tr') /\
    (post_count tr' = post_count tr + 1 \/ post_count tr' = post_count tr + 2).
Proof.
  intros Hb.
  destruct (hf_fetch_trace E (compose_context message history) timeout tr)
    as (fetched & sent & Hf & Hcases).
  rewrite (classify_intent_hf_run E _ _ _ _ Hb), (hf_try_fetched E _ _ _ _ _ Hf).
  cbn [fst snd]. eexists _, _. split; [reflexivity|].
  rewrite post_count_app. destruct Hcases as [-> | ->]; cbn; lia.
Qed.

Lemma hf_each_posts (E : environment) (msgs : list string) (tr : trace) :
  Forall (fun msg => is_blank msg = false) msgs ->
  exists reports tr',
    classify_each (fun msg => classify_intent_hf E msg None 5) msgs tr
    = (inr reports, tr') /\
    map fst reports = msgs /\
    post_count tr + length msgs <= post_count tr' /\
    post_count tr' <= post_count tr + 2 * length msgs.
Proof.
  intros Hall. revert tr.
  induction Hall as [|msg msgs Hb Hall IH]; intros tr.
  - exists [], tr. simpl. repeat split; lia.
  - destruct (hf_call_posts E msg None 5 tr Hb) as (result & tr1 & Hrun & Hposts).
    destruct (IH tr1) as (reports & tr' & Hrest & Hmsgs & Hlo & Hhi).
    exists ((msg, result) :: reports), tr'.
    cbn [classify_each]. unfold bind at 1. rewrite Hrun.
    unfold bind at 1. rewrite Hrest. unfold ret.
    split; [reflexivity|]. split; [simpl; now rewrite Hmsgs|].
    simpl length. lia.
Qed.

Lemma local_each_calls (E : environment) (msgs : list string) (tr : trace) :
  Forall (fun msg => is_blank msg = false) msgs ->
  exists reports,
    classify_each (fun msg => classify_intent E msg None) msgs tr
    = (inr reports,
       tr ++ map (fun msg => EvPipeline msg INTENT_LABELS false) msgs) /\
    map fst reports = msgs.
Proof.
  intros Hall. revert tr.
  induction Hall as [|msg msgs Hb Hall IH]; intros tr.
  - exists []. simpl. now rewrite app_nil_r.
  - destruct (IH (tr ++ [EvPipeline msg INTENT_LABELS false]))
      as (reports & Hrest & Hmsgs).
    eexists ((msg, _) :: reports).
    cbn [classify_each]. unfold bind at 1.
    rewrite (classify_intent_run E _ _ _ Hb), local_try_run. cbn [fst snd].
    unfold bind at 1.
    change (compose_context msg None) with msg.
    rewrite Hrest. unfold ret. rewrite <- app_assoc.
    split; [reflexivity|]. simpl. now rewrite Hmsgs.
Qed.

(** X20. The demonstration loops run through without an exception,
    whatever the classifier does: the remote one classifies its seven
    messages in order with seven to fourteen requests in all, the local
    one its five messages with exactly one call of the pipeline for each,
    in order, every message being sent as it is. *)
Theorem demo_loops_run_through (E : environment) (tr : trace) :
  (exists reports tr',
      hf_main E tr = (inr reports, tr') /\
      map fst reports = hf_test_messages /\
      post_count tr + 7 <= post_count tr' /\
      post_count tr' <= post_count tr + 14) /\
  (exists reports,
      local_main E tr
      = (inr reports,
         tr ++ map (fun msg => EvPipeline msg INTENT_LABELS false) local_test_messages) /\
      map fst reports = local_test_messages).
Proof.
  split.
  - apply (hf_each_posts E hf_test_messages tr).
    repeat constructor.
  - apply (local_each_calls E local_test_messages tr).
    repeat constructor.
Qed.

(* ================================================================== *)
(** ** The further properties at work on the test doubles *)

Lemma error_status_witness :
  is_blank "hello" = false /\
  classify_intent_hf server_error_env "hello" None 5 []
  = (inr {| intent := "general"; confidence := 0; all_scores := [];
            raw_label := None; source := Some "hf_api";
            error := Some "HTTP error" |},
     [] ++ [EvPost (hf_request server_error_env "hello" None 5)]).
Proof.
  split; [reflexivity|].
  apply (error_status_is_not_retried server_error_env "hello" None 5 []
           {| status_code := 500; json_body := None |});
    [reflexivity | reflexivity | simpl; lia | discriminate].
Defined.

Lemma malformed_answer_witness :
  is_blank "hi" = false /\
  classify_intent_hf malformed_env "hi" None 5 []
  = (inr (hf_failure "Unexpected API response format"),
     [EvPost (hf_request malformed_env "hi" None 5)]).
Proof.
  split; [reflexivity|].
  destruct (malformed_answers_are_reported malformed_env "hi" None 5 []
              [EvPost (hf_request malformed_env "hi" None 5)]
              (VDict [("error", VStr "Rate limit reached")])
              eq_refl eq_refl) as [_ Hdict].
  exact (proj1 (Hdict [("error", VStr "Rate limit reached")] eq_refl) eq_refl).
Defined.

Lemma unequal_lists_witness :
  is_blank "hello" = false /\
  exists result,
    classify_intent_hf short_scores_env "hello" None 5 []
    = (inr result, [EvPost (hf_request short_scores_env "hello" None 5)]) /\
    all_scores result = [(VStr "greeting", (7 # 10)%Q); (VStr "help", (2 # 10)%Q)] /\
    length (all_scores result) <= 2.
Proof.
  split; [reflexivity|].
  destruct (proj1 (unequal_lists_are_truncated short_scores_env "hello" None 5 []
                     ["greeting"; "help"; "support"] [(7 # 10)%Q; (2 # 10)%Q]
                     "greeting" (7 # 10)%Q eq_refl eq_refl eq_refl)
              short_scores_body
              [EvPost (hf_request short_scores_env "hello" None 5)]
              eq_refl)
    as (result & Hrun & Hres & Hlen).
  - eexists. repeat split.
  - exists result. split; [exact Hrun|]. split; [|exact Hlen].
    rewrite Hres. reflexivity.
Defined.

Lemma paths_agree_witness :
  is_blank "show my balance" = false /\
  exists remote local,
    classify_intent_hf balance_env "show my balance" None 5 []
    = (inr remote, [EvPost (hf_request balance_env "show my balance" None 5)]) /\
    classify_intent balance_env "show my balance" None []
    = (inr local, [] ++ [pipeline_call "show my balance" None]) /\
    intent remote = intent local /\
    all_scores remote = all_scores local.
Proof.
  split; [reflexivity|].
  destruct (paths_agree_on_a_ranking balance_env "show my balance" None 5 []
              [EvPost (hf_request balance_env "show my balance" None 5)]
              balance_ranking eq_refl balance_env_answers
              balance_env_pipeline_answers)
    as (remote & local & Hr & Hl & Hi & _ & Hs & _).
  exists remote, local. now repeat split.
Defined.

Lemma general_signal_witness :
  is_blank "hello there" = false /\
  PyList.first foreign_ranking = Some ("mystery", (9 # 10)%Q) /\
  exists result,
    classify_intent_hf foreign_env "hello there" None 5 []
    = (inr result, [EvPost (hf_request foreign_env "hello there" None 5)]) /\
    (intent result = "general" <-> ~ In "mystery" INTENT_LABELS).
Proof.
  split; [reflexivity|]. split; [reflexivity|].
  exact (proj1 (general_signals_an_unknown_label
                  foreign_env "hello there" None 5 [] foreign_ranking
                  "mystery" (9 # 10)%Q eq_refl eq_refl)
           _ foreign_env_answers).
Defined.

Lemma fourteen_scores_witness :
  is_blank "show my balance" = false /\
  over_labels balance_ranking /\
  exists result,
    classify_intent_hf balance_env "show my balance" None 5 []
    = (inr result, [EvPost (hf_request balance_env "show my balance" None 5)]) /\
    length (all_scores result) = 14 /\
    (exists s, PyDict.get py_key_eqb (all_scores result) (VStr "dashboard") = Some s).
Proof.
  assert (Ho : over_labels balance_ranking)
    by (apply over_labels_check; reflexivity).
  split; [reflexivity|]. split; [exact Ho|].
  exact (proj1 (full_ranking_gives_fourteen_scores
                  balance_env "show my balance" None 5 [] balance_ranking
                  eq_refl Ho)
           _ balance_env_answers).
Defined.

Lemma last_two_texts_witness :
  [turn_of "A"; turn_of "B"; turn_of "C"; turn_of "D"] <> [] /\
  [("role", "user") :: turn_of "C"; turn_of "D"] <> [] /\
  compose_context "E" (Some [turn_of "A"; turn_of "B"; turn_of "C"; turn_of "D"])
  = compose_context "E" (Some [("role", "user") :: turn_of "C"; turn_of "D"]).
Proof.
  split; [discriminate|]. split; [discriminate|].
  apply only_the_last_two_texts_matter; [discriminate | discriminate | reflexivity].
Defined.

Lemma endpoint_failure_witness :
  is_blank "show my balance" = false /\
  app_classify timeout_env strict_validation
    {| req_message := "show my balance"; req_history := None |} []
  = (inr (inr {| resp_intent := "general"; resp_confidence := 0;
                 resp_all_scores := []; resp_raw_label := None;
                 resp_error := Some "Request timeout" |}),
     [EvPost (hf_request timeout_env "show my balance" None 5)]).
Proof.
  split; [reflexivity|].
  apply (proj2 (endpoint_contains_classifier_failures timeout_env strict_validation
                  {| req_message := "show my balance"; req_history := None |} [])
           (Timeout "read timed out")
           [EvPost (hf_request timeout_env "show my balance" None 5)]);
    reflexivity.
Defined.

Lemma endpoint_success_witness :
  is_blank "show my balance" = false /\
  PyList.first balance_ranking = Some ("check_balance", (1 # 2)%Q) /\
  app_classify balance_env strict_validation
    {| req_message := "show my balance"; req_history := None |} []
  = (inr (inr {| resp_intent := "dashboard";
                 resp_confidence := (1 # 2)%Q;
                 resp_all_scores :=
                   PyDict.of_items String.eqb (scores_items balance_ranking);
                 resp_raw_label := Some "check_balance";
                 resp_error := None |}),
     [EvPost (hf_request balance_env "show my balance" None 5)]).
Proof.
  split; [reflexivity|]. split; [reflexivity|].
  apply (endpoint_returns_the_classification balance_env strict_validation
           {| req_message := "show my balance"; req_history := None |} []
           [EvPost (hf_request balance_env "show my balance" None 5)]
           balance_ranking "check_balance" (1 # 2)%Q eq_refl eq_refl
           balance_env_answers).
Defined.

(* ================================================================== *)
(** ** The raw view of the history *)

Lemma get_raw_turn (h : turn) (k : string) :
  PyDict.get String.eqb (map (fun kv => (fst kv, VStr (snd kv))) h) k
  = option_map VStr (PyDict.get String.eqb h k).
Proof.
  induction h as [|[k0 v0] h IH]; simpl; [reflexivity|].
  destruct (String.eqb k0 k); [reflexivity | exact IH].
Qed.

Lemma turn_text_typed (h : turn) :
  turn_text (raw_turn h) = inr (VStr (PyDict.get_default String.eqb h "text" "")).
Proof.
  unfold turn_text, raw_turn, PyDict.get_default. rewrite get_raw_turn.
  now destruct (PyDict.get String.eqb h "text").
Qed.

Lemma turn_texts_typed (turns : list turn) :
  turn_texts (map raw_turn turns)
  = inr (map VStr (map (fun h => PyDict.get_default String.eqb h "text" "") turns)).
Proof.
  induction turns as [|h turns IH]; [reflexivity|].
  cbn [map turn_texts]. rewrite turn_text_typed, IH. reflexivity.
Qed.

Lemma str_values_strings (strings : list string) :
  str_values (map VStr strings) = inr strings.
Proof.
  induction strings as [|s strings IH]; [reflexivity|].
  cbn [map str_values]. now rewrite IH.
Qed.

Lemma last_n_map {A B : Type} (f : A -> B) (n : nat) (l : list A) :
  PyList.last_n n (map f l) = map f (PyList.last_n n l).
Proof. unfold PyList.last_n. now rewrite length_map, skipn_map. Qed.

(** On a typed history the raw composition is the typed one. *)
Lemma raw_compose_typed (message : string) (history : option (list turn)) :
  raw_compose_context message (raw_history history)
  = inr (compose_context message history).
Proof.
  destruct history as [[|h0 rest]|]; try reflexivity.
  unfold raw_history, option_map, raw_compose_context, compose_context.
  set (turns := h0 :: rest). change (map raw_turn turns) with (map raw_turn (h0 :: rest)).
  cbn [map]. change (raw_turn h0 :: map raw_turn rest) with (map raw_turn turns).
  rewrite length_map.
  replace (PyList.last_n 2
             (if (3 <? length turns)%nat
              then PyList.last_n 3 (map raw_turn turns) else map raw_turn turns))
    with (map raw_turn
            (PyList.last_n 2
               (if (3 <? length turns)%nat then PyList.last_n 3 turns else turns)))
    by (destruct (3 <? length turns)%nat; now rewrite !last_n_map).
  rewrite turn_texts_typed. cbn [fbind]. unfold join_values.
  rewrite str_values_strings. reflexivity.
Qed.

(** The two views agree on typed histories. *)
Lemma raw_view_agrees (E : environment) (message : string)
    (history : option (list turn)) (timeout : Z) (tr : trace) :
  classify_intent_hf_raw E message (raw_history history) timeout tr
  = classify_intent_hf E message history timeout tr /\
  classify_intent_raw E message (raw_history history) tr
  = classify_intent E message history tr.
Proof.
  unfold classify_intent_hf_raw, classify_intent_raw,
    classify_intent_hf, classify_intent.
  destruct (is_blank message); [now split|].
  unfold bind, lift. now rewrite raw_compose_typed.
Qed.

Lemma text_ok_text (h : pyval) :
  text_ok h = true -> exists s, turn_text h = inr (VStr s).
Proof.
  destruct h as [| | | | |items]; try discriminate.
  unfold text_ok, turn_text, PyDict.get_default.
  destruct (PyDict.get String.eqb items "text") as [[| | |s| |]|];
    try discriminate; intros _; now eexists.
Qed.

Lemma turn_texts_ok (turns : list pyval) :
  forallb text_ok turns = true ->
  exists strings, turn_texts turns = inr (map VStr strings).
Proof.
  induction turns as [|h turns IH]; simpl; [now exists []|].
  intros H. apply andb_prop in H as [Hh Hrest].
  destruct (text_ok_text h Hh) as (s & ->).
  destruct (IH Hrest) as (strings & ->).
  now exists (s :: strings).
Qed.

(** A turn that is not as the composition needs it makes the comprehension
    or the join raise. *)
Lemma turn_texts_bad (turns : list pyval) :
  forallb text_ok turns = false ->
  (exists e, turn_texts turns = inl e) \/
  (exists values e, turn_texts turns = inr values /\ str_values values = inl e).
Proof.
  induction turns as [|h turns IH]; [discriminate|].
  cbn [forallb turn_texts]. intros H.
  destruct h as [| | | | |items]; try (left; now eexists).
  cbn [turn_text fbind].
  destruct (turn_texts turns) as [e|values] eqn:Hrest; [left; now eexists|].
  cbn [fbind]. right.
  unfold text_ok in H. unfold PyDict.get_default.
  destruct (PyDict.get String.eqb items "text") as [[| | |s| |]|];
    try (eexists _, _; split; [reflexivity | reflexivity]);
    cbn [andb] in H;
    (destruct (IH H) as [(e & He) | (values' & e & Hv & He)];
     [discriminate|]; injection Hv as <-;
     eexists _, e; split; [reflexivity | cbn [str_values]; now rewrite He]).
Qed.

Lemma last_two_of_window {A : Type} (turns : list A) :
  PyList.last_n 2 (if (3 <? length turns)%nat then PyList.last_n 3 turns else turns)
  = PyList.last_n 2 turns.
Proof.
  destruct (3 <? length turns)%nat; [|reflexivity].
  now rewrite PyListFacts.last_n_last_n by lia.
Qed.

Lemma raw_compose_readable (message : string) (history : option (list pyval)) :
  readable history = true ->
  exists ctx, raw_compose_context message history = inr ctx.
Proof.
  destruct history as [[|h0 rest]|]; try (intros _; now eexists).
  unfold readable, raw_compose_context. rewrite last_two_of_window.
  intros H. destruct (turn_texts_ok _ H) as (strings & ->).
  cbn [fbind]. unfold join_values. rewrite str_values_strings.
  now eexists.
Qed.

Lemma raw_compose_unreadable (message : string) (history : option (list pyval)) :
  readable history = false ->
  exists e, raw_compose_context message history = inl e.
Proof.
  destruct history as [[|h0 rest]|]; try discriminate.
  unfold readable, raw_compose_context. rewrite last_two_of_window.
  intros H.
  destruct (turn_texts_bad _ H) as [(e & ->) | (values & e & -> & He)].
  - now exists e.
  - cbn [fbind]. unfold join_values. rewrite He. now exists e.
Qed.



(** What the composition returns is the message behind a prefix. *)
Lemma raw_compose_prefix (message : string) (history : option (list pyval))
    (ctx : string) :
  raw_compose_context message history = inr ctx ->
  exists prefix, ctx = (prefix ++ message)%string.
Proof.
  destruct history as [[|h0 rest]|];
    try (intros H; injection H as <-; now exists "").
  unfold raw_compose_context.
  destruct (turn_texts _) as [e|values]; [discriminate|]. cbn [fbind].
  destruct (join_values " " values) as [e|context]; [discriminate|].
  cbn [fbind]. intros H. injection H as <-.
  destruct (PyStr.truthy context); [|now exists ""].
  exists (context ++ " ")%string. now rewrite string_app_assoc.
Qed.

(** With a message that is not blank and a history that can be read, a
    call is the call without history on the composed text. *)
Lemma raw_reduces (E : environment) (message : string)
    (history : option (list pyval)) (timeout : Z) (tr : trace) (ctx : string) :
  is_blank message = false ->
  raw_compose_context message history = inr ctx ->
  is_blank ctx = false /\
  classify_intent_hf_raw E message history timeout tr
  = classify_intent_hf E ctx None timeout tr /\
  classify_intent_raw E message history tr = classify_intent E ctx None tr.
Proof.
  intros Hb Hc.
  assert (Hctx : is_blank ctx = false).
  { destruct (raw_compose_prefix message history ctx Hc) as (prefix & ->).
    now apply is_blank_app. }
  split; [exact Hctx|].
  unfold classify_intent_hf_raw, classify_intent_raw,
    classify_intent_hf, classify_intent.
  rewrite Hb, Hctx. unfold bind, lift. rewrite Hc. now split.
Qed.

(** The composition raises: so do both functions, before anything is
    sent. *)
Lemma raw_raises (E : environment) (message : string)
    (history : option (list pyval)) (timeout : Z) (tr : trace) (e : exn) :
  is_blank message = false ->
  raw_compose_context message history = inl e ->
  classify_intent_hf_raw E message history timeout tr = (inl e, tr) /\
  classify_intent_raw E message history tr = (inl e, tr).
Proof.
  intros Hb Hc. unfold classify_intent_hf_raw, classify_intent_raw.
  rewrite Hb. unfold bind, lift. now rewrite Hc.
Qed.

Lemma raw_blank (E : environment) (message : string)
    (history : option (list pyval)) (timeout : Z) (tr : trace) :
  is_blank message = true ->
  classify_intent_hf_raw E message history timeout tr
  = (inr (hf_failure "Empty message"), tr) /\
  classify_intent_raw E message history tr = (inr (local_failure None), tr).
Proof.
  intros Hb. unfold classify_intent_hf_raw, classify_intent_raw.
  now rewrite Hb.
Qed.








(** C7 as stated fails: a ranking that covers the label set may hold a
    label more.  With the label mystery after the fifteen labels of the
    registry the classification succeeds, and [all_scores] has the key
    ["mystery"], which is no canonical intent of the label set. *)
Lemma foreign_label_adds_a_key :
  covers_labels extended_ranking /\
  exists result,
    classify_intent_hf extended_env "show my balance" None 5 []
    = (inr result, [EvPost (hf_request extended_env "show my balance" None 5)]) /\
    In (VStr "mystery") (PyDict.keys (all_scores result)) /\
    ~ (exists l c, In l INTENT_LABELS /\ mapping_lookup l = Some c /\
                   VStr "mystery" = VStr c) /\
    length (all_scores result) = 15 /\
    ~ canonical_scores extended_ranking (all_scores result).
Proof.
  split; [apply covers_labels_check; reflexivity|].
  exists (ranked_result (Some "hf_api") extended_ranking "check_balance" (1 # 2)%Q).
  split; [vm_compute; reflexivity|].
  assert (Hin : In (VStr "mystery")
                  (PyDict.keys (all_scores (ranked_result (Some "hf_api")
                     extended_ranking "check_balance" (1 # 2)%Q))))
    by (vm_compute; repeat (first [left; reflexivity | right])).
  assert (Hnot : ~ (exists l c, In l INTENT_LABELS /\ mapping_lookup l = Some c /\
                                VStr "mystery" = VStr c)).
  { intros (l & c & Hl & Hc & Heq). injection Heq as <-.
    simpl in Hl.
    repeat (destruct Hl as [<-|Hl]; [discriminate Hc|]). contradiction. }
  split; [exact Hin|]. split; [exact Hnot|]. split; [reflexivity|].
  intros (Hkeys & _). apply Hnot.
  exact (proj1 (Hkeys (VStr "mystery")) Hin).
Qed.

(** *** What a call does, on any history *)

Lemma turn_texts_error (turns : list pyval) (e : exn) :
  turn_texts turns = inl e -> exists v, e = AttributeError v.
Proof.
  induction turns as [|h turns IH]; [discriminate|].
  cbn [turn_texts].
  destruct h as [| | | | |items]; cbn [turn_text fbind];
    try (intros H; injection H as <-; now eexists).
  destruct (turn_texts turns) as [e'|values]; [|discriminate].
  cbn [fbind]. intros H. injection H as <-. now apply IH.
Qed.

Lemma str_values_error (values : list pyval) (e : exn) :
  str_values values = inl e -> exists v, e = TypeError v.
Proof.
  induction values as [|v values IH]; [discriminate|].
  cbn [str_values].
  destruct v as [| | |s| |]; try (intros H; injection H as <-; now eexists).
  destruct (str_values values) as [e'|strings]; [|discriminate].
  cbn [fbind]. intros H. injection H as <-. now apply IH.
Qed.

(** The composition raises nothing but the [AttributeError] of a turn
    that is no dict and the [TypeError] of a text that is no string. *)
Lemma raw_compose_error (message : string) (history : option (list pyval)) (e : exn) :
  raw_compose_context message history = inl e ->
  (exists v, e = AttributeError v) \/ (exists v, e = TypeError v).
Proof.
  destruct history as [[|h0 rest]|]; try discriminate.
  unfold raw_compose_context.
  destruct (turn_texts _) as [e'|values] eqn:Ht.
  - cbn [fbind]. intros H. injection H as <-. left.
    exact (turn_texts_error _ _ Ht).
  - cbn [fbind]. unfold join_values.
    destruct (str_values values) as [e'|strings] eqn:Hs; [|discriminate].
    cbn [fbind]. intros H. injection H as <-. right.
    exact (str_values_error _ _ Hs).
Qed.

(** X1. What a call of the remote path does, on any history, is one of
    three things.  For a message made of white space it returns the
    ["Empty message"] result and sends nothing.  For another message,
    when one of the last two turns is not a dict or has a text that is
    not a string, it raises the [AttributeError] or [TypeError] of the
    composition, which stands before the [try], and sends nothing.
    Otherwise it returns a result after the request sent once, or,
    exactly when the first answer has status 503, after the request, a
    sleep of two seconds and the same request again. *)
Theorem hf_side_effects
    (E : environment) (message : string) (history : option (list pyval))
    (timeout : Z) (tr : trace) :
  (PyStr.whitespace_only message = true /\
   classify_intent_hf_raw E message history timeout tr
   = (inr (hf_failure "Empty message"), tr)) \/
  (PyStr.whitespace_only message = false /\
   readable history = false /\
   exists e,
     ((exists v, e = AttributeError v) \/ (exists v, e = TypeError v)) /\
     classify_intent_hf_raw E message history timeout tr = (inl e, tr)) \/
  (PyStr.whitespace_only message = false /\
   readable history = true /\
   exists ctx result sent,
     raw_compose_context message history = inr ctx /\
     classify_intent_hf_raw E message history timeout tr = (inr result, tr ++ sent) /\
     ((~ loading_first E tr (build_request E ctx timeout) /\
       sent = [EvPost (build_request E ctx timeout)]) \/
      (loading_first E tr (build_request E ctx timeout) /\
       sent = [EvPost (build_request E ctx timeout);
               EvSleep 2;
               EvPost (build_request E ctx timeout)]))).
Proof.
  destruct (PyStr.whitespace_only message) eqn:Hw.
  - left. split; [reflexivity|].
    exact (proj1 (raw_blank E message history timeout tr
                    (proj2 (is_blank_iff message) Hw))).
  - right. pose proof (proj1 (whitespace_only_false message) Hw) as Hb.
    destruct (readable history) eqn:Hr.
    + right. split; [reflexivity|]. split; [reflexivity|].
      destruct (raw_compose_readable message history Hr) as (ctx & Hc).
      destruct (raw_reduces E message history timeout tr ctx Hb Hc)
        as (Hctx & -> & _).
      destruct (hf_typed_effects E ctx None timeout tr)
        as (result & sent & Hrun & Hcases).
      exists ctx, result, sent. split; [exact Hc|]. split; [exact Hrun|].
      apply whitespace_only_false in Hctx.
      destruct Hcases as [(Hblank & _) | [(_ & Hno & Hs) | (_ & Hyes & Hs)]].
      * congruence.
      * left. now split.
      * right. now split.
    + left. split; [reflexivity|]. split; [reflexivity|].
      destruct (raw_compose_unreadable message history Hr) as (e & He).
      exists e. split; [exact (raw_compose_error _ _ _ He)|].
      exact (proj1 (raw_raises E message history timeout tr e Hb He)).
Qed.

(** X2. What a call of the local path does, on any history, is one of
    three things.  For a message made of white space it returns the
    degraded result without [error] and does not call the pipeline.  For
    another message, when one of the last two turns is not a dict or has a
    text that is not a string, it raises the [AttributeError] or
    [TypeError] of the composition, which stands before the [try], and
    does not call the pipeline.  Otherwise it returns a result after
    exactly one call of the pipeline, with the composed text, the whole
    label set and [multi_label=False], whether that call succeeds or
    raises. *)
Theorem local_side_effects
    (E : environment) (message : string) (history : option (list pyval))
    (tr : trace) :
  (PyStr.whitespace_only message = true /\
   classify_intent_raw E message history tr = (inr (local_failure None), tr)) \/
  (PyStr.whitespace_only message = false /\
   readable history = false /\
   exists e,
     ((exists v, e = AttributeError v) \/ (exists v, e = TypeError v)) /\
     classify_intent_raw E message history tr = (inl e, tr)) \/
  (PyStr.whitespace_only message = false /\
   readable history = true /\
   exists ctx result,
     raw_compose_context message history = inr ctx /\
     classify_intent_raw E message history tr
     = (inr result, tr ++ [EvPipeline ctx INTENT_LABELS false])).
Proof.
  destruct (PyStr.whitespace_only message) eqn:Hw.
  - left. split; [reflexivity|].
    exact (proj2 (raw_blank E message history 0 tr
                    (proj2 (is_blank_iff message) Hw))).
  - right. pose proof (proj1 (whitespace_only_false message) Hw) as Hb.
    destruct (readable history) eqn:Hr.
    + right. split; [reflexivity|]. split; [reflexivity|].
      destruct (raw_compose_readable message history Hr) as (ctx & Hc).
      destruct (raw_reduces E message history 0 tr ctx Hb Hc)
        as (Hctx & _ & ->).
      rewrite (classify_intent_run E ctx None tr Hctx), local_try_run.
      change (compose_context ctx None) with ctx. cbn [fst snd].
      exists ctx. eexists. split; [exact Hc | reflexivity].
    + left. split; [reflexivity|]. split; [reflexivity|].
      destruct (raw_compose_unreadable message history Hr) as (e & He).
      exists e. split; [exact (raw_compose_error _ _ _ He)|].
      exact (proj2 (raw_raises E message history 0 tr e Hb He)).
Qed.

(** *** The handler on any request the model admits *)

Lemma turn_texts_dicts (turns : list (list (string * pyval))) :
  exists values, turn_texts (map VDict turns) = inr values.
Proof.
  induction turns as [|items turns (values & IH)]; [now exists []|].
  cbn [map turn_texts turn_text fbind]. rewrite IH. now eexists.
Qed.

(** When every turn is a dict, the composition raises nothing but the
    [TypeError] of a text that is no string. *)
Lemma request_compose_error (request : RawClassificationRequest) (e : exn) :
  raw_compose_context (raw_message request) (request_history request) = inl e ->
  exists v, e = TypeError v.
Proof.
  unfold request_history.
  destruct (raw_turns request) as [[|items turns]|]; try discriminate.
  unfold option_map, raw_compose_context.
  change (map VDict (items :: turns))
    with (VDict items :: map VDict turns).
  cbv iota beta.
  change (VDict items :: map VDict turns) with (map VDict (items :: turns)).
  rewrite last_two_of_window, last_n_map.
  destruct (turn_texts_dicts (PyList.last_n 2 (items :: turns))) as (values & ->).
  cbn [fbind]. unfold join_values.
  destruct (str_values values) as [e'|strings] eqn:Hs; [|discriminate].
  cbn [fbind]. intros H. injection H as <-.
  exact (str_values_error _ _ Hs).
Qed.

Lemma app_raw_run (E : environment)
    (coerce : classification -> fallible ClassificationResponse)
    (request : RawClassificationRequest) (tr tr' : trace) (result : classification) :
  classify_intent_hf_raw E (raw_message request) (request_history request) 5 tr
  = (inr result, tr') ->
  app_classify_raw E coerce request tr
  = (inr match ClassificationResponse_init coerce result with
         | inr response => inr response
         | inl e => inl {| exc_status := 500; exc_detail := exn_str E e |}
         end, tr').
Proof.
  intros Hrun. unfold app_classify_raw, try_except, bind. rewrite Hrun.
  unfold lift. now destruct (ClassificationResponse_init coerce result).
Qed.

Lemma app_raw_raise (E : environment)
    (coerce : classification -> fallible ClassificationResponse)
    (request : RawClassificationRequest) (tr tr' : trace) (e : exn) :
  classify_intent_hf_raw E (raw_message request) (request_history request) 5 tr
  = (inl e, tr') ->
  app_classify_raw E coerce request tr
  = (inr (inl {| exc_status := 500; exc_detail := exn_str E e |}), tr').
Proof.
  intros Hrun. unfold app_classify_raw, try_except, bind. now rewrite Hrun.
Qed.

(** X18. On any request body the request model admits (turns that are
    dicts, with values of any kind), the handler raises nothing but its
    own [HTTPException], always with status 500, and in two situations
    only.  Either the message is not blank and one of the last two turns
    has a text that is not a string: then [classify_intent_hf] raised the
    [TypeError] of the join, nothing was sent, and the detail is the text
    of that error.  Or the classification succeeded, its raw top label or
    a key of [all_scores] is not a string, and the validation rejects it;
    the detail is then the text of the validation error. *)
Theorem endpoint_error_cases
    (E : environment) (coerce : classification -> fallible ClassificationResponse)
    (request : RawClassificationRequest) (tr : trace) :
  exists outcome tr',
    app_classify_raw E coerce request tr = (inr outcome, tr') /\
    (forall exc,
        outcome = inl exc ->
        exc_status exc = 500%Z /\
        ((exists v,
             is_blank (raw_message request) = false /\
             readable (request_history request) = false /\
             classify_intent_hf_raw E (raw_message request)
               (request_history request) 5 tr = (inl (TypeError v), tr) /\
             tr' = tr /\
             exc_detail exc = exn_str E (TypeError v)) \/
         (exists result e,
             classify_intent_hf_raw E (raw_message request)
               (request_history request) 5 tr = (inr result, tr') /\
             error result = None /\
             coerce result = inl e /\
             exc_detail exc = exn_str E e /\
             ((exists top, raw_label result = Some top /\ forall s, top <> VStr s) \/
              (exists k, In k (PyDict.keys (all_scores result)) /\
                         forall s, k <> VStr s))))) /\
    (is_blank (raw_message request) = false ->
     readable (request_history request) = false ->
     exists v,
       outcome = inl {| exc_status := 500; exc_detail := exn_str E (TypeError v) |} /\
       tr' = tr).
Proof.
  set (message := raw_message request). set (history := request_history request).
  destruct (is_blank message) eqn:Hb.
  - pose proof (proj1 (raw_blank E message history 5 tr Hb)) as Hrun.
    rewrite (app_raw_run E coerce request tr tr _ Hrun).
    eexists _, tr. split; [reflexivity|]. split; [|discriminate].
    intros exc Hexc. discriminate.
  - destruct (readable history) eqn:Hr.
    + destruct (raw_compose_readable message history Hr) as (ctx & Hc).
      destruct (raw_reduces E message history 5 tr ctx Hb Hc) as (Hctx & Heq & _).
      destruct (hf_run_shape E ctx None 5 tr) as (result & tr' & Hrun & Hshape).
      rewrite <- Heq in Hrun.
      rewrite (app_raw_run E coerce request tr tr' result Hrun).
      eexists _, tr'. split; [reflexivity|]. split; [|discriminate].
      intros exc Hexc. unfold ClassificationResponse_init in Hexc.
      destruct (typed_fields result) as [response|] eqn:Ht; [discriminate|].
      destruct (coerce result) as [e|response] eqn:Hco; [|discriminate].
      injection Hexc as <-. split; [reflexivity|]. right.
      exists result, e. split; [exact Hrun|].
      destruct Hshape as [(text & ->) | (body & Hn)]; [discriminate|].
      destruct (hf_normalize_success E body result Hn) as (top & Hl & He & _ & _).
      split; [exact He|]. split; [exact Hco|]. split; [reflexivity|].
      unfold typed_fields in Ht. rewrite Hl in Ht.
      destruct (str_items (all_scores result)) as [items|] eqn:Hi.
      * left. exists top. split; [exact Hl|]. intros s ->. discriminate.
      * right. now apply str_items_none.
    + destruct (raw_compose_unreadable message history Hr) as (e & He).
      destruct (request_compose_error request e He) as (v & ->).
      pose proof (proj1 (raw_raises E message history 5 tr _ Hb He)) as Hrun.
      rewrite (app_raw_raise E coerce request tr tr _ Hrun).
      eexists _, tr. split; [reflexivity|]. split.
      * intros exc Hexc. injection Hexc as <-. split; [reflexivity|].
        left. exists v. now repeat split.
      * intros _ _. now exists v.
Qed.

Lemma endpoint_error_witness :
  exists tr',
    app_classify_raw balance_env strict_validation
      {| raw_message := "hi"; raw_turns := Some [[("text", VNone)]] |} []
    = (inr (inl {| exc_status := 500; exc_detail := "type error" |}), tr') /\
    tr' = [] /\
    classify_intent_hf_raw balance_env "hi" (Some [VDict [("text", VNone)]]) 5 []
    = (inl (TypeError VNone), []).
Proof.
  destruct (endpoint_error_cases balance_env strict_validation
              {| raw_message := "hi"; raw_turns := Some [[("text", VNone)]] |} [])
    as (outcome & tr' & Hrun & _ & Hbad).
  destruct (Hbad eq_refl eq_refl) as (v & -> & ->).
  exists []. split; [|split; reflexivity].
  rewrite Hrun. reflexivity.
Defined.
